(** * FastF1 Flask API server ([main.py]): a shallow embedding

    The server keeps two process-wide globals, [current_session] and the
    [session_data] dictionary, fills the dictionary from the tables of a
    FastF1 session ([update_session_data]) and serves slices of it over
    HTTP.  The embedding follows the source top to bottom:

    - Python scalars found in table cells are the inductive [value];
      the builtins the program applies to them ([int], [str], [-],
      [notna], [!=]) are functions returning [result], with one [exn]
      per Python exception class the program can meet;
    - a DataFrame is its column names and its rows; [iterrows] yields a
      [Series] per row;
    - the two globals are the record [Globals]; code that mutates them
      runs in the monad [M], in which a raised exception keeps the
      mutations made so far (as a Python [try]/[except] does);
    - the collaborator ([fastf1.get_session], [Session.load]) and the
      wall clock are the record [World], an argument of every operation
      that reaches them.

    [print] calls write to the console only and are left out. *)

From stdpp Require Import base option list gmap strings sorting pretty.
From Stdlib Require Import Ascii QArith.

#[local] Open Scope Z_scope.
#[local] Open Scope string_scope.

(** ** Exceptions and fallible computations *)

(** The exception classes that can arise; all derive from [Exception],
    so [except Exception] catches each of them. *)
Inductive exn :=
  | KeyError (key : string)
  | ValueError
  | TypeError
  | AttributeError
  | CollaboratorError (msg : string).

Inductive result (A : Type) :=
  | Ok (a : A)
  | Raise (e : exn).
Arguments Ok {A} a.
Arguments Raise {A} e.

#[global] Instance result_ret : MRet result := λ A a, Ok a.
#[global] Instance result_bind : MBind result := λ A B f r,
  match r with Ok a => f a | Raise e => Raise e end.
#[global] Instance result_fmap : FMap result := λ A B f r,
  match r with Ok a => Ok (f a) | Raise e => Raise e end.

(** ** Python values held in table cells *)

Inductive value :=
  | VNone
  | VStr (s : string)
  | VInt (z : Z)
  | VFloat (q : Q)          (* a finite float *)
  | VNaN                    (* float('nan') *)
  | VTimedelta (ns : Z)     (* pandas.Timedelta, in nanoseconds *)
  | VNaT.                   (* pandas.NaT *)

#[global] Instance Q_eq_dec : EqDecision Q.
Proof. solve_decision. Defined.

#[global] Instance value_eq_dec : EqDecision value.
Proof. solve_decision. Defined.

(** What pandas and the float printer decide and the program only
    passes on: the text of a float and of a Timedelta, [int] of a time
    scalar, and subtraction outside the cases written out in [py_sub]. *)
Class Pandas := {
  float_str : Q → string;
  timedelta_str : Z → string;
  time_int : value → result Z;
  other_sub : value → value → result value
}.

(** *** [int(s)] for a string *)

(** A Python string is held as the bytes of its UTF-8 encoding;
    [utf8_decode] gives back its code points.  Bytes that are not
    well-formed UTF-8 are the encoding of no string and decode to
    [None]. *)
Definition continuation (b : ascii) : option N :=
  let n := N_of_ascii b in
  if ((128 <=? n) && (n <? 192))%N then Some (n - 128)%N else None.

Fixpoint utf8_decode (l : list ascii) : option (list N) :=
  match l with
  | [] => Some []
  | b :: l1 =>
      let n := N_of_ascii b in
      if (n <? 128)%N then
        match utf8_decode l1 with Some k => Some (n :: k) | None => None end
      else if ((192 <=? n) && (n <? 224))%N then
        match l1 with
        | c1 :: l2 =>
            match continuation c1, utf8_decode l2 with
            | Some x1, Some k =>
                let cp := ((n - 192) * 64 + x1)%N in
                if (128 <=? cp)%N then Some (cp :: k) else None
            | _, _ => None
            end
        | _ => None
        end
      else if ((224 <=? n) && (n <? 240))%N then
        match l1 with
        | c1 :: c2 :: l3 =>
            match continuation c1, continuation c2, utf8_decode l3 with
            | Some x1, Some x2, Some k =>
                let cp := ((n - 224) * 4096 + x1 * 64 + x2)%N in
                if ((2048 <=? cp) && negb ((55296 <=? cp) && (cp <=? 57343)))%N
                then Some (cp :: k) else None
            | _, _, _ => None
            end
        | _ => None
        end
      else if ((240 <=? n) && (n <? 248))%N then
        match l1 with
        | c1 :: c2 :: c3 :: l4 =>
            match continuation c1, continuation c2, continuation c3,
                  utf8_decode l4 with
            | Some x1, Some x2, Some x3, Some k =>
                let cp := ((n - 240) * 262144 + x1 * 4096 + x2 * 64 + x3)%N in
                if ((65536 <=? cp) && (cp <=? 1114111))%N
                then Some (cp :: k) else None
            | _, _, _, _ => None
            end
        | _ => None
        end
      else None
  end.

(** The decimal digits of Unicode 14, the character database of
    CPython 3.11: each entry is the code point of a digit zero and is
    followed by the digits one to nine. *)
Definition digit_zeros : list N :=
  [48;
   1632; 1776; 1984; 2406; 2534; 2662; 2790; 2918;
   3046; 3174; 3302; 3430; 3558; 3664; 3792; 3872;
   4160; 4240; 6112; 6160; 6470; 6608; 6784; 6800;
   6992; 7088; 7232; 7248; 42528; 43216; 43264; 43472;
   43504; 43600; 44016; 65296; 66720; 68912; 69734; 69872;
   69942; 70096; 70384; 70736; 70864; 71248; 71360; 71472;
   71904; 72016; 72784; 73040; 73120; 92768; 92864; 93008;
   120782; 120792; 120802; 120812; 120822; 123200; 123632; 125264;
   130032]%N.

(** The white space [int] strips: the ASCII characters that C's
    [isspace] accepts, and the Unicode spaces beyond ASCII. *)
Definition is_space (c : N) : bool :=
  bool_decide (c ∈ [9; 10; 11; 12; 13; 32; 133; 160; 5760;
                    8192; 8193; 8194; 8195; 8196; 8197; 8198; 8199; 8200;
                    8201; 8202; 8232; 8233; 8239; 8287; 12288]%N).

Definition digit_of (c : N) : option Z :=
  match list_find (λ zero, zero ≤ c < zero + 10)%N digit_zeros with
  | Some (_, zero) => Some (Z.of_N (c - zero))
  | None => None
  end.

Fixpoint lstrip (l : list N) : list N :=
  match l with
  | c :: l' => if is_space c then lstrip l' else l
  | [] => []
  end.

Definition strip (l : list N) : list N :=
  reverse (lstrip (reverse (lstrip l))).

(** The longest numeral [int] converts, in digits: the default of
    [sys.get_int_max_str_digits()]. *)
Definition int_max_str_digits : nat := 4300.

(** Digits with single underscores between them; [acc] is the number
    read so far, [count] the number of digits read, and [prev] tells
    whether the previous character was a digit. *)
Fixpoint digits_from (acc : Z) (count : nat) (prev : bool) (l : list N)
  : option Z :=
  match l with
  | [] =>
      if (prev && bool_decide (count ≤ int_max_str_digits)%nat)%bool
      then Some acc else None
  | c :: l' =>
      match digit_of c with
      | Some d => digits_from (10 * acc + d) (S count) true l'
      | None =>
          if (bool_decide (c = 95%N) && prev)%bool
          then digits_from acc count false l'
          else None
      end
  end.

(** [int(s)]: surrounding white space, an optional sign, decimal digits
    with single underscores between them, at most
    [int_max_str_digits] digits in all; [None] is ValueError. *)
Definition int_of_string (s : string) : option Z :=
  match utf8_decode (String.list_ascii_of_string s) with
  | None => None
  | Some text =>
      match strip text with
      | [] => None
      | c :: l =>
          if bool_decide (c = 45%N) then Z.opp <$> digits_from 0 0 false l
          else if bool_decide (c = 43%N) then digits_from 0 0 false l
          else digits_from 0 0 false (c :: l)
      end
  end.

(** *** Builtins on cell values *)

Section builtins.
Context `{Pandas}.

(** [int(v)] *)
Definition py_int (v : value) : result Z :=
  match v with
  | VInt z => Ok z
  | VFloat q => Ok (Z.quot (Qnum q) (Z.pos (Qden q)))
  | VNaN => Raise ValueError
  | VStr s => match int_of_string s with Some z => Ok z | None => Raise ValueError end
  | VNone => Raise TypeError
  | VTimedelta _ | VNaT => time_int v
  end.

(** [str(v)] *)
Definition py_str (v : value) : string :=
  match v with
  | VNone => "None"
  | VStr s => s
  | VInt z => pretty z
  | VFloat q => float_str q
  | VNaN => "nan"
  | VTimedelta ns => timedelta_str ns
  | VNaT => "NaT"
  end.

(** [a - b]: timedeltas subtract in nanoseconds, NaT absorbs, integers
    subtract exactly. *)
Definition py_sub (a b : value) : result value :=
  match a, b with
  | VTimedelta x, VTimedelta y => Ok (VTimedelta (x - y))
  | VTimedelta _, VNaT | VNaT, VTimedelta _ | VNaT, VNaT => Ok VNaT
  | VInt x, VInt y => Ok (VInt (x - y))
  | _, _ => other_sub a b
  end.

End builtins.

(** [pandas.notna(v)] *)
Definition notna (v : value) : bool :=
  match v with
  | VNone | VNaN | VNaT => false
  | _ => true
  end.

(** [v != s] for a string [s], as the element-wise comparison of a
    column with a string computes it. *)
Definition ne_str (v : value) (s : string) : bool :=
  match v with
  | VStr s' => negb (String.eqb s' s)
  | _ => true
  end.

(** [v.total_seconds()], as the exact quotient that the float
    approximates.  The rows that reach this call passed [notna], so the
    [VNaT] case (where pandas answers nan) is never taken. *)
Definition total_seconds (v : value) : result Q :=
  match v with
  | VTimedelta ns => Ok (ns # 1000000000)
  | _ => Raise AttributeError
  end.

(** ** Series and DataFrames *)

(** A row as [iterrows] yields it: the frame's column names and the
    row's cells.  A cell the row is too short to hold reads as NaN, as
    pandas pads ragged input. *)
Record Series := { index : list string; cells : list value }.

Definition series_lookup (row : Series) (key : string) : option value :=
  '(i, _) ← list_find (λ k, k = key) (index row);
  Some (default VNaN (cells row !! i)).

(** [row[key]] *)
Definition getitem (row : Series) (key : string) : result value :=
  match series_lookup row key with
  | Some v => Ok v
  | None => Raise (KeyError key)
  end.

(** [key in row] *)
Definition contains (row : Series) (key : string) : bool :=
  bool_decide (key ∈ index row).

(** [row.get(key, dflt)] *)
Definition series_get (row : Series) (key : string) (dflt : value) : value :=
  default dflt (series_lookup row key).

Record DataFrame := { columns : list string; rows : list (list value) }.

Definition row_of (df : DataFrame) (vals : list value) : Series :=
  {| index := columns df; cells := vals |}.

Definition iterrows (df : DataFrame) : list Series :=
  row_of df <$> rows df.

(** The cell of column [col] in a row of [df]. *)
Definition cell (df : DataFrame) (col : string) (vals : list value) : value :=
  series_get (row_of df vals) col VNaN.

(** [df[p(df[col])]]: the rows whose cell in [col] satisfies [p];
    [df[col]] raises KeyError when there is no such column. *)
Definition df_where (df : DataFrame) (col : string) (p : value → bool)
  : result DataFrame :=
  if bool_decide (col ∈ columns df)
  then Ok {| columns := columns df;
             rows := filter (λ vals, p (cell df col vals) = true) (rows df) |}
  else Raise (KeyError col).

(** [df.head(n)] *)
Definition head (n : nat) (df : DataFrame) : DataFrame :=
  {| columns := columns df; rows := take n (rows df) |}.

(** *** [sort_values] *)

Inductive kind := KTime | KNum | KStr.

#[global] Instance kind_eq_dec : EqDecision kind.
Proof. solve_decision. Defined.

Definition kind_of (v : value) : option kind :=
  match v with
  | VTimedelta _ => Some KTime
  | VInt _ | VFloat _ => Some KNum
  | VStr _ => Some KStr
  | VNone | VNaN | VNaT => None
  end.

Definition num_of (v : value) : Q :=
  match v with
  | VInt z => inject_Z z
  | VFloat q => q
  | _ => 0%Q
  end.

(** [a <= b] between two keys of one kind. *)
Definition key_leb (a b : value) : bool :=
  match a, b with
  | VTimedelta x, VTimedelta y => bool_decide (x ≤ y)%Z
  | VStr x, VStr y => String.leb x y
  | (VInt _ | VFloat _), (VInt _ | VFloat _) => Qle_bool (num_of a) (num_of b)
  | _, _ => true
  end.

(** The keys of a column can be ordered when they are all of one kind;
    Python raises TypeError on the first comparison across kinds. *)
Definition comparable (keys : list value) : bool :=
  match keys with
  | [] => true
  | k :: ks => bool_decide (Forall (λ k', kind_of k' = kind_of k) ks)
  end.

(** The order of two rows of [df] by their keys in [col]. *)
Definition row_le (df : DataFrame) (col : string) : relation (list value) :=
  λ r1 r2, key_leb (cell df col r1) (cell df col r2) = true.

#[global] Instance row_le_dec df col : RelDecision (row_le df col).
Proof. intros r1 r2. unfold row_le. apply _. Defined.

(** [df.sort_values(col)]: ascending, rows with a missing key last.
    Rows with equal keys keep their order here; pandas' default sort may
    order them differently. *)
Definition sort_values (df : DataFrame) (col : string) : result DataFrame :=
  if bool_decide (col ∈ columns df) then
    let present := filter (λ vals, notna (cell df col vals) = true) (rows df) in
    let missing := filter (λ vals, notna (cell df col vals) ≠ true) (rows df) in
    if comparable (cell df col <$> present) then
      Ok {| columns := columns df;
            rows := merge_sort (row_le df col) present ++ missing |}
    else Raise TypeError
  else Raise (KeyError col).

(** ** The collaborator's session object *)

(** Reading an attribute of a FastF1 session is a computation: it gives
    a table or raises.  An attribute that does not exist raises
    AttributeError. *)
Module Session.
Record t := {
  results : result DataFrame;
  track_status : result DataFrame;
  laps : result DataFrame;
  race_control_messages : result DataFrame
}.
End Session.

(** [hasattr(obj, name)]: false when reading the attribute raises
    AttributeError, true when it gives a value; any other exception
    passes through. *)
Definition hasattr {A} (attr : result A) : result bool :=
  match attr with
  | Ok _ => Ok true
  | Raise AttributeError => Ok false
  | Raise e => Raise e
  end.

(** ** The snapshot: [session_data] and its entries *)

Record DriverResult := {
  pos_position : Z;
  pos_driver : value;
  pos_full_name : value;
  pos_team : value;
  pos_number : Z;
  pos_grid_position : option Z;
  pos_status : value
}.

Record TrackStatusEvent := {
  ts_time : string;
  ts_status : string;
  ts_status_code : string
}.

Record LapRecord := {
  lap_driver : value;
  lap_team : value;
  lap_number : Z;
  lap_time : string;
  lap_time_seconds : Q
}.

Record PitStopRecord := {
  pit_driver : value;
  pit_team : value;
  pit_lap_number : Z;
  pit_duration : option string
}.

Record Message := {
  msg_time : string;
  msg_message : value;
  msg_category : value
}.

Record SessionData := {
  positions : list DriverResult;
  track_status : list TrackStatusEvent;
  fastest_laps : list LapRecord;
  pit_stops : list PitStopRecord;
  race_control_messages : list Message;
  last_update : option string;
  is_live : bool
}.

(** The module-level globals. *)
Record Globals := {
  current_session : option Session.t;
  session_data : SessionData
}.

Definition initial_globals : Globals :=
  {| current_session := None;
     session_data :=
       {| positions := []; track_status := []; fastest_laps := [];
          pit_stops := []; race_control_messages := [];
          last_update := None; is_live := false |} |}.

(** ** Code that mutates the globals *)

(** A computation reads and writes the globals and ends with a value or
    a raised exception; the writes made before a raise stay. *)
Definition M (A : Type) : Type := Globals → result A * Globals.

#[global] Instance M_ret : MRet M := λ A a g, (Ok a, g).
#[global] Instance M_bind : MBind M := λ A B f m g,
  match m g with
  | (Ok a, g') => f a g'
  | (Raise e, g') => (Raise e, g')
  end.

Definition lift {A} (r : result A) : M A := λ g, (r, g).

(** [try: body except Exception as e: handler(e)] *)
Definition try_except {A} (body : M A) (handler : exn → M A) : M A := λ g,
  match body g with
  | (Ok a, g') => (Ok a, g')
  | (Raise e, g') => handler e g'
  end.

(** The globals after a write. *)
Definition assign (set : M unit) (g : Globals) : Globals := (set g).2.

Definition get_current_session : M (option Session.t) :=
  λ g, (Ok (current_session g), g).

Definition set_current_session (s : Session.t) : M unit :=
  λ g, (Ok (), {| current_session := Some s; session_data := session_data g |}).

Definition get_session_data : M SessionData :=
  λ g, (Ok (session_data g), g).

(** [session_data[key] = v], one writer per key. *)
Definition modify_session_data (f : SessionData → SessionData) : M unit :=
  λ g, (Ok (), {| current_session := current_session g;
                  session_data := f (session_data g) |}).

Definition set_positions (v : list DriverResult) : M unit :=
  modify_session_data (λ d,
    {| positions := v; track_status := track_status d;
       fastest_laps := fastest_laps d; pit_stops := pit_stops d;
       race_control_messages := race_control_messages d;
       last_update := last_update d; is_live := is_live d |}).

Definition set_track_status (v : list TrackStatusEvent) : M unit :=
  modify_session_data (λ d,
    {| positions := positions d; track_status := v;
       fastest_laps := fastest_laps d; pit_stops := pit_stops d;
       race_control_messages := race_control_messages d;
       last_update := last_update d; is_live := is_live d |}).

Definition set_fastest_laps (v : list LapRecord) : M unit :=
  modify_session_data (λ d,
    {| positions := positions d; track_status := track_status d;
       fastest_laps := v; pit_stops := pit_stops d;
       race_control_messages := race_control_messages d;
       last_update := last_update d; is_live := is_live d |}).

Definition set_pit_stops (v : list PitStopRecord) : M unit :=
  modify_session_data (λ d,
    {| positions := positions d; track_status := track_status d;
       fastest_laps := fastest_laps d; pit_stops := v;
       race_control_messages := race_control_messages d;
       last_update := last_update d; is_live := is_live d |}).

Definition set_race_control_messages (v : list Message) : M unit :=
  modify_session_data (λ d,
    {| positions := positions d; track_status := track_status d;
       fastest_laps := fastest_laps d; pit_stops := pit_stops d;
       race_control_messages := v;
       last_update := last_update d; is_live := is_live d |}).

Definition set_last_update (v : option string) : M unit :=
  modify_session_data (λ d,
    {| positions := positions d; track_status := track_status d;
       fastest_laps := fastest_laps d; pit_stops := pit_stops d;
       race_control_messages := race_control_messages d;
       last_update := v; is_live := is_live d |}).

(** ** What the HTTP handlers answer *)

(** What a handler passes to [jsonify], with the HTTP status. *)
Record DataReply (A : Type) := {
  dr_code : Z;
  dr_success : bool;
  dr_data : A;
  dr_last_update : option string
}.
Arguments dr_code {A} _.
Arguments dr_success {A} _.
Arguments dr_data {A} _.
Arguments dr_last_update {A} _.

(** A reply with a message; [mr_extra] is the key that only the
    successful reply carries. *)
Record MessageReply (A : Type) := {
  mr_code : Z;
  mr_success : bool;
  mr_message : string;
  mr_extra : option A
}.
Arguments mr_code {A} _.
Arguments mr_success {A} _.
Arguments mr_message {A} _.
Arguments mr_extra {A} _.

Record StatusReply := {
  st_code : Z;
  st_success : bool;
  st_status : string;
  st_session_loaded : bool;
  st_last_update : option string;
  st_is_live : bool
}.

(** ** [update_session_data] *)

(** The [status_names] dictionary. *)
Definition status_names : gmap string string :=
  <["1" := "Green Flag"]> (<["2" := "Yellow Flag"]> (<["4" := "Safety Car"]>
  (<["5" := "Red Flag"]> (<["6" := "Virtual Safety Car"]>
  (<["7" := "VSC Ending"]> ∅))))).

(** [status_names.get(code, 'Unknown')] *)
Definition status_label (code : string) : string :=
  default "Unknown" (status_names !! code).

Section extraction.
Context `{Pandas}.

(** The dictionary built for one row of [results]. *)
Definition driver_result (row : Series) : result DriverResult :=
  position ← getitem row "Position" ≫= py_int;
  driver ← getitem row "Abbreviation";
  full_name ← getitem row "FullName";
  team ← getitem row "TeamName";
  number ← getitem row "DriverNumber" ≫= py_int;
  grid_position ←
    (if contains row "GridPosition"
     then Some <$> (getitem row "GridPosition" ≫= py_int)
     else mret None);
  status ← getitem row "Status";
  mret {| pos_position := position; pos_driver := driver;
          pos_full_name := full_name; pos_team := team;
          pos_number := number; pos_grid_position := grid_position;
          pos_status := status |}.

(** The dictionary built for one row of [status_changes]. *)
Definition track_status_event (row : Series) : result TrackStatusEvent :=
  time ← py_str <$> getitem row "Time";
  status ← (λ v, status_label (py_str v)) <$> getitem row "Status";
  status_code ← py_str <$> getitem row "Status";
  mret {| ts_time := time; ts_status := status; ts_status_code := status_code |}.

(** The dictionary built for one row of [fastest]. *)
Definition lap_record (row : Series) : result LapRecord :=
  driver ← getitem row "Driver";
  team ← getitem row "Team";
  number ← getitem row "LapNumber" ≫= py_int;
  time ← py_str <$> getitem row "LapTime";
  seconds ← getitem row "LapTime" ≫= total_seconds;
  mret {| lap_driver := driver; lap_team := team; lap_number := number;
          lap_time := time; lap_time_seconds := seconds |}.

(** The dictionary built for one row of [pit_stops]. *)
Definition pit_stop_record (row : Series) : result PitStopRecord :=
  driver ← getitem row "Driver";
  team ← getitem row "Team";
  number ← getitem row "LapNumber" ≫= py_int;
  duration ←
    (if contains row "PitOutTime"
     then out ← getitem row "PitOutTime";
          inn ← getitem row "PitInTime";
          d ← py_sub out inn;
          mret (Some (py_str d))
     else mret None);
  mret {| pit_driver := driver; pit_team := team; pit_lap_number := number;
          pit_duration := duration |}.

(** The dictionary built for one row of [messages]. *)
Definition message_record (row : Series) : result Message :=
  time ← py_str <$> getitem row "Time";
  message ← getitem row "Message";
  mret {| msg_time := time; msg_message := message;
          msg_category := series_get row "Category" (VStr "Other") |}.

(** The body of the [try] block; [now] is what
    [datetime.now().isoformat()] returns at the end of the pass. *)
Definition update_body (session : Session.t) (now : string) : M unit :=
  (* Get positions *)
  results ← lift (Session.results session);
  positions ← lift (mapM driver_result (iterrows results));
  set_positions positions;;
  (* Get track status *)
  has_track_status ← lift (hasattr (Session.track_status session));
  (if has_track_status : bool then
     track_status ← lift (Session.track_status session);
     status_changes ← lift (df_where track_status "Status" (λ v, ne_str v "1"));
     events ← lift (mapM track_status_event (iterrows status_changes));
     set_track_status events
   else mret ());;
  (* Get fastest laps *)
  laps ← lift (Session.laps session);
  with_time ← lift (df_where laps "LapTime" notna);
  fastest ← lift (head 10 <$> sort_values with_time "LapTime");
  fastest_laps ← lift (mapM lap_record (iterrows fastest));
  set_fastest_laps fastest_laps;;
  (* Get pit stops *)
  pit_stops ← lift (df_where laps "PitInTime" notna);
  stops ← lift (mapM pit_stop_record (iterrows pit_stops));
  set_pit_stops stops;;
  (* Get race control messages *)
  has_messages ← lift (hasattr (Session.race_control_messages session));
  (if has_messages : bool then
     messages ← lift (Session.race_control_messages session);
     records ← lift (mapM message_record (iterrows messages));
     set_race_control_messages records
   else mret ());;
  set_last_update (Some now).

Definition update_session_data (now : string) : M unit :=
  current ← get_current_session;
  match current with
  | None => mret ()
  | Some session =>
      try_except (update_body session now) (λ e, mret ())
  end.

(** ** [load_session] *)

(** What the process reaches outside itself during one call: the FastF1
    entry point, the [load] method of the session it returns, and the
    clock. *)
Record World := {
  Handle : Type;
  get_session : value → value → value → result Handle;
  load : Handle → result Session.t;
  clock : string
}.

Definition load_session (w : World) (year event_name session_type : value)
  : M bool :=
  try_except
    (session ← lift (get_session w year event_name session_type);
     loaded ← lift (load w session);
     set_current_session loaded;;
     (* Update session data *)
     update_session_data (clock w);;
     mret true)
    (λ e, mret false).

(** ** The HTTP handlers *)

(** [l[:n]] *)
Definition slice_to {A} (n : Z) (l : list A) : list A :=
  if bool_decide (0 ≤ n)%Z then take (Z.to_nat n) l
  else take (length l - Z.to_nat (- n)) l.

(** [request.args.get(key, dflt, type=int)]: the default when the key is
    missing or its text is not an integer. *)
Definition args_get_int (args : gmap string string) (key : string) (dflt : Z) : Z :=
  match args !! key with
  | Some text => default dflt (int_of_string text)
  | None => dflt
  end.

(** [POST /api/session/load]; [body] is the object read from
    [request.json], or the exception that reading it raises. *)
Definition load_session_endpoint (w : World) (body : result (gmap string value))
  : M (MessageReply SessionData) :=
  data ← lift body;
  let year := default (VInt 2024) (data !! "year") in
  let event := default (VStr "Abu Dhabi") (data !! "event") in
  let session_type := default (VStr "R") (data !! "session_type") in
  success ← load_session w year event session_type;
  if success : bool then
    d ← get_session_data;
    mret {| mr_code := 200; mr_success := true;
            mr_message := "Session loaded: " +:+ py_str year +:+ " "
                          +:+ py_str event +:+ " " +:+ py_str session_type;
            mr_extra := Some d |}
  else
    mret {| mr_code := 500; mr_success := false;
            mr_message := "Failed to load session"; mr_extra := None |}.

Definition data_reply {A} (d : A) (g : Globals) : DataReply A :=
  {| dr_code := 200; dr_success := true; dr_data := d;
     dr_last_update := last_update (session_data g) |}.

(** [GET /api/positions] *)
Definition get_positions (g : Globals) : DataReply (list DriverResult) :=
  data_reply (positions (session_data g)) g.

(** [GET /api/top3] *)
Definition get_top3 (g : Globals) : DataReply (list DriverResult) :=
  let top3 :=
    if bool_decide (3 ≤ length (positions (session_data g)))%nat
    then slice_to 3 (positions (session_data g))
    else positions (session_data g) in
  data_reply top3 g.

(** [GET /api/track-status] *)
Definition get_track_status (g : Globals) : DataReply (list TrackStatusEvent) :=
  data_reply (track_status (session_data g)) g.

(** [GET /api/fastest-laps] *)
Definition get_fastest_laps (args : gmap string string) (g : Globals)
  : DataReply (list LapRecord) :=
  let limit := args_get_int args "limit" 5 in
  data_reply (slice_to limit (fastest_laps (session_data g))) g.

(** [GET /api/pit-stops] *)
Definition get_pit_stops (g : Globals) : DataReply (list PitStopRecord) :=
  data_reply (pit_stops (session_data g)) g.

(** [GET /api/race-control] *)
Definition get_race_control (args : gmap string string) (g : Globals)
  : DataReply (list Message) :=
  let limit := args_get_int args "limit" 10 in
  data_reply (slice_to limit (race_control_messages (session_data g))) g.

(** [GET /api/full-data] *)
Definition get_full_data (g : Globals) : DataReply SessionData :=
  data_reply (session_data g) g.

(** [GET /api/status] *)
Definition get_status (g : Globals) : StatusReply :=
  {| st_code := 200; st_success := true; st_status := "running";
     st_session_loaded := bool_decide (current_session g ≠ None);
     st_last_update := last_update (session_data g);
     st_is_live := is_live (session_data g) |}.

(** [POST /api/refresh] *)
Definition refresh_data (now : string) : M (MessageReply (option string)) :=
  current ← get_current_session;
  match current with
  | None =>
      mret {| mr_code := 400; mr_success := false;
              mr_message := "No session loaded"; mr_extra := None |}
  | Some _ =>
      update_session_data now;;
      d ← get_session_data;
      mret {| mr_code := 200; mr_success := true;
              mr_message := "Data refreshed";
              mr_extra := Some (last_update d) |}
  end.

(** ** The states the server can be in *)

(** The globals start as the module defines them, [__main__] loads the
    default session, and from then on only the two POST routes write;
    the GET handlers above are functions of the globals. *)
Inductive reachable : Globals → Prop :=
  | reach_import : reachable initial_globals
  | reach_main w g :
      reachable g →
      reachable (load_session w (VInt 2024) (VStr "Abu Dhabi") (VStr "R") g).2
  | reach_load w body g :
      reachable g → reachable (load_session_endpoint w body g).2
  | reach_refresh now g :
      reachable g → reachable (refresh_data now g).2.

End extraction.

(** ** The five extractions, one at a time *)

(** What each block of [update_body] computes before it assigns, as a
    function of the session alone.  The two blocks behind a [hasattr]
    test give [None] when the attribute is missing.
    [update_body_run] below shows that the pass is these five in order. *)
Section categories.
Context `{Pandas}.

Definition extract_positions (session : Session.t) : result (list DriverResult) :=
  results ← Session.results session;
  mapM driver_result (iterrows results).

Definition extract_track_status (session : Session.t)
  : result (option (list TrackStatusEvent)) :=
  has_track_status ← hasattr (Session.track_status session);
  if has_track_status : bool then
    track_status ← Session.track_status session;
    status_changes ← df_where track_status "Status" (λ v, ne_str v "1");
    Some <$> mapM track_status_event (iterrows status_changes)
  else mret None.

Definition extract_fastest_laps (session : Session.t) : result (list LapRecord) :=
  laps ← Session.laps session;
  with_time ← df_where laps "LapTime" notna;
  fastest ← head 10 <$> sort_values with_time "LapTime";
  mapM lap_record (iterrows fastest).

Definition extract_pit_stops (session : Session.t) : result (list PitStopRecord) :=
  laps ← Session.laps session;
  pit_stops ← df_where laps "PitInTime" notna;
  mapM pit_stop_record (iterrows pit_stops).

Definition extract_race_control (session : Session.t)
  : result (option (list Message)) :=
  has_messages ← hasattr (Session.race_control_messages session);
  if has_messages : bool then
    messages ← Session.race_control_messages session;
    Some <$> mapM message_record (iterrows messages)
  else mret None.

Inductive category :=
  | Positions | TrackStatus | FastestLaps | PitStops | RaceControl.

(** The place of a category in the pass. *)
Definition order (c : category) : nat :=
  match c with
  | Positions => 0 | TrackStatus => 1 | FastestLaps => 2
  | PitStops => 3 | RaceControl => 4
  end.

(** The extraction of [c] raises. *)
Definition raises (session : Session.t) (c : category) : Prop :=
  match c with
  | Positions => ∃ e, extract_positions session = Raise e
  | TrackStatus => ∃ e, extract_track_status session = Raise e
  | FastestLaps => ∃ e, extract_fastest_laps session = Raise e
  | PitStops => ∃ e, extract_pit_stops session = Raise e
  | RaceControl => ∃ e, extract_race_control session = Raise e
  end.

(** The session has no attribute for [c]. *)
Definition absent (session : Session.t) (c : category) : Prop :=
  match c with
  | TrackStatus => extract_track_status session = Ok None
  | RaceControl => extract_race_control session = Ok None
  | _ => False
  end.

(** Field [c] of [d] holds what the session gives for [c]. *)
Definition updated (session : Session.t) (c : category) (d : SessionData) : Prop :=
  match c with
  | Positions => extract_positions session = Ok (positions d)
  | TrackStatus => extract_track_status session = Ok (Some (track_status d))
  | FastestLaps => extract_fastest_laps session = Ok (fastest_laps d)
  | PitStops => extract_pit_stops session = Ok (pit_stops d)
  | RaceControl =>
      extract_race_control session = Ok (Some (race_control_messages d))
  end.

(** Field [c] is the same in [d] and [d']. *)
Definition kept (c : category) (d d' : SessionData) : Prop :=
  match c with
  | Positions => positions d' = positions d
  | TrackStatus => track_status d' = track_status d
  | FastestLaps => fastest_laps d' = fastest_laps d
  | PitStops => pit_stops d' = pit_stops d
  | RaceControl => race_control_messages d' = race_control_messages d
  end.

(** Field [c] of [d] is the empty list. *)
Definition emptied (c : category) (d : SessionData) : Prop :=
  match c with
  | Positions => positions d = []
  | TrackStatus => track_status d = []
  | FastestLaps => fastest_laps d = []
  | PitStops => pit_stops d = []
  | RaceControl => race_control_messages d = []
  end.

(** Each extraction guarded on its own: when the data for [c] is missing
    or malformed, field [c] keeps its value or becomes empty, and every
    other category whose data the session gives is updated. *)
Definition independently_guarded (g : Globals) (session : Session.t)
    (now : string) (c : category) : Prop :=
  current_session g = Some session →
  raises session c ∨ absent session c →
  let d' := session_data (update_session_data now g).2 in
  (kept c (session_data g) d' ∨ emptied c d') ∧
  ∀ c', c' ≠ c → ¬ raises session c' → ¬ absent session c' →
        updated session c' d'.

End categories.

(** ** A concrete runtime and concrete sessions *)

(** Used by the worked examples below.  Timedeltas print as pandas does
    ([D days HH:MM:SS] with six or nine fractional digits when there is
    a fraction), floats with their decimal digits; [int] of a time
    scalar and subtraction across kinds raise TypeError. *)
Fixpoint zero_pad (width : nat) (text : string) : string :=
  match width with
  | O => text
  | S w => if bool_decide (String.length text < S w)%nat
           then zero_pad w ("0" +:+ text) else text
  end.

Fixpoint fraction_digits (fuel : nat) (num den : Z) : string :=
  match fuel with
  | O => ""
  | S fuel' =>
      if bool_decide (num = 0)%Z then ""
      else pretty (10 * num / den)%Z
           +:+ fraction_digits fuel' ((10 * num) mod den)%Z den
  end.

Definition sample_float_str (q : Q) : string :=
  let num := Qnum q in
  let den := Z.pos (Qden q) in
  let whole := Z.quot num den in
  let part := Z.abs (Z.rem num den) in
  (if bool_decide (num < 0 ∧ whole = 0)%Z then "-" else "")
  +:+ pretty whole +:+ "."
  +:+ (if bool_decide (part = 0)%Z then "0" else fraction_digits 17 part den).

Definition sample_timedelta_str (ns : Z) : string :=
  let day := (86400 * 1000000000)%Z in
  let days := (ns / day)%Z in
  let rest := (ns mod day)%Z in
  let secs := (rest / 1000000000)%Z in
  let frac := (rest mod 1000000000)%Z in
  pretty days +:+ " days" +:+ (if bool_decide (days < 0)%Z then " +" else " ")
  +:+ zero_pad 2 (pretty (secs / 3600)%Z) +:+ ":"
  +:+ zero_pad 2 (pretty ((secs / 60) mod 60)%Z) +:+ ":"
  +:+ zero_pad 2 (pretty (secs mod 60)%Z)
  +:+ (if bool_decide (frac = 0)%Z then ""
       else if bool_decide (frac mod 1000 = 0)%Z
            then "." +:+ zero_pad 6 (pretty (frac / 1000)%Z)
            else "." +:+ zero_pad 9 (pretty frac)).

Definition sample_pandas : Pandas :=
  {| float_str := sample_float_str;
     timedelta_str := sample_timedelta_str;
     time_int := λ _, Raise TypeError;
     other_sub := λ _ _, Raise TypeError |}.

Definition seconds (s : Z) : value := VTimedelta (s * 1000000000).

(** A classification of three cars. *)
Definition ex_results : DataFrame :=
  {| columns := ["Position"; "Abbreviation"; "FullName"; "TeamName";
                 "DriverNumber"; "GridPosition"; "Status"];
     rows := [
       [VFloat 1; VStr "NOR"; VStr "Lando Norris"; VStr "McLaren";
        VStr "4"; VFloat 1; VStr "Finished"];
       [VFloat 2; VStr "SAI"; VStr "Carlos Sainz"; VStr "Ferrari";
        VStr "55"; VFloat 3; VStr "Finished"];
       [VFloat 3; VStr "LEC"; VStr "Charles Leclerc"; VStr "Ferrari";
        VStr "16"; VFloat 19; VStr "Finished"]] |}.

(** The same table for a session without a classification: the position
    of the second car is NaN. *)
Definition ex_results_nan : DataFrame :=
  {| columns := columns ex_results;
     rows := [
       [VFloat 1; VStr "NOR"; VStr "Lando Norris"; VStr "McLaren";
        VStr "4"; VFloat 1; VStr "Finished"];
       [VNaN; VStr "SAI"; VStr "Carlos Sainz"; VStr "Ferrari";
        VStr "55"; VFloat 3; VStr "Finished"]] |}.

Definition ex_track_status : DataFrame :=
  {| columns := ["Time"; "Status"; "Message"];
     rows := [
       [seconds 0; VStr "1"; VStr "AllClear"];
       [seconds 65; VStr "2"; VStr "Yellow"];
       [seconds 90; VStr "4"; VStr "SCDeployed"];
       [seconds 300; VStr "1"; VStr "AllClear"];
       [seconds 400; VStr "3"; VStr "Unlisted"]] |}.

Definition ex_laps : DataFrame :=
  {| columns := ["Driver"; "Team"; "LapNumber"; "LapTime";
                 "PitInTime"; "PitOutTime"];
     rows := [
       [VStr "NOR"; VStr "McLaren"; VFloat 1; seconds 92; VNaT; VNaT];
       [VStr "SAI"; VStr "Ferrari"; VFloat 1; seconds 95; VNaT; VNaT];
       [VStr "NOR"; VStr "McLaren"; VFloat 2; seconds 88; seconds 190; seconds 212];
       [VStr "SAI"; VStr "Ferrari"; VFloat 2; VNaT; seconds 195; VNaT];
       [VStr "NOR"; VStr "McLaren"; VFloat 3; seconds 87; VNaT; VNaT]] |}.

(** The lap log without its out-time column. *)
Definition ex_laps_no_out : DataFrame :=
  {| columns := ["Driver"; "Team"; "LapNumber"; "LapTime"; "PitInTime"];
     rows := [
       [VStr "NOR"; VStr "McLaren"; VFloat 2; seconds 88; seconds 190]] |}.

Definition ex_messages : DataFrame :=
  {| columns := ["Time"; "Category"; "Message"];
     rows := [
       [seconds 5; VStr "Flag"; VStr "GREEN LIGHT - PIT EXIT OPEN"];
       [seconds 65; VStr "Flag"; VStr "YELLOW IN TRACK SECTOR 3"]] |}.

Definition ex_session : Session.t :=
  {| Session.results := Ok ex_results;
     Session.track_status := Ok ex_track_status;
     Session.laps := Ok ex_laps;
     Session.race_control_messages := Ok ex_messages |}.

(** A session whose classification has a NaN position. *)
Definition ex_session_nan : Session.t :=
  {| Session.results := Ok ex_results_nan;
     Session.track_status := Ok ex_track_status;
     Session.laps := Ok ex_laps;
     Session.race_control_messages := Ok ex_messages |}.

(** A session for which the lap log was not loaded: reading [laps]
    raises the collaborator's DataNotLoadedError. *)
Definition ex_session_no_laps : Session.t :=
  {| Session.results := Ok ex_results;
     Session.track_status := Ok ex_track_status;
     Session.laps := Raise (CollaboratorError "DataNotLoadedError");
     Session.race_control_messages := Ok ex_messages |}.

(** A session object without a [track_status] attribute. *)
Definition ex_session_no_track : Session.t :=
  {| Session.results := Ok ex_results;
     Session.track_status := Raise AttributeError;
     Session.laps := Ok ex_laps;
     Session.race_control_messages := Ok ex_messages |}.

Definition ex_session_no_out : Session.t :=
  {| Session.results := Ok ex_results;
     Session.track_status := Ok ex_track_status;
     Session.laps := Ok ex_laps_no_out;
     Session.race_control_messages := Ok ex_messages |}.

(** Worlds: the collaborator hands out the given session, or fails. *)
Definition world_with (session : Session.t) : World :=
  {| Handle := unit;
     get_session := λ _ _ _, Ok ();
     load := λ _, Ok session;
     clock := "2024-12-08T17:00:00.000000" |}.

Definition world_unknown_event : World :=
  {| Handle := unit;
     get_session := λ _ _ _, Raise ValueError;
     load := λ _, Ok ex_session;
     clock := "2024-12-08T17:00:00.000000" |}.

Definition world_load_fails : World :=
  {| Handle := unit;
     get_session := λ _ _ _, Ok ();
     load := λ _, Raise (CollaboratorError "no data for this session");
     clock := "2024-12-08T17:00:00.000000" |}.

Definition loaded (session : Session.t) : Globals :=
  {| current_session := Some session; session_data := session_data initial_globals |}.

(** The numeral written with [n] digits 1. *)
Definition ones (n : nat) : string :=
  String.string_of_list_ascii (replicate n "1"%char).

(** The server after [__main__] loaded [ex_session]. *)
Definition ex_started : Globals :=
  (@load_session sample_pandas (world_with ex_session)
     (VInt 2024) (VStr "Abu Dhabi") (VStr "R") initial_globals).2.

(** The same after a pass over a session with a NaN position. *)
Definition ex_started_nan : Globals :=
  (@load_session sample_pandas (world_with ex_session_nan)
     (VInt 2024) (VStr "Abu Dhabi") (VStr "R") initial_globals).2.

(** A lap log of twelve timed laps, given out of order. *)
Definition ex_laps_many : DataFrame :=
  {| columns := ["Driver"; "Team"; "LapNumber"; "LapTime"; "PitInTime"];
     rows := (λ n : Z, [VStr "NOR"; VStr "McLaren"; VInt n;
                        seconds (100 - ((7 * n) mod 12)); VNaT])
             <$> [1; 2; 3; 4; 5; 6; 7; 8; 9; 10; 11; 12] |}.

Definition ex_session_many : Session.t :=
  {| Session.results := Ok ex_results;
     Session.track_status := Ok ex_track_status;
     Session.laps := Ok ex_laps_many;
     Session.race_control_messages := Ok ex_messages |}.

(** A lap log without the [LapTime] column, and without rows. *)
Definition ex_laps_no_time : DataFrame :=
  {| columns := ["Driver"; "Team"; "LapNumber"; "PitInTime"]; rows := [] |}.

Definition ex_session_no_time : Session.t :=
  {| Session.results := Ok ex_results;
     Session.track_status := Ok ex_track_status;
     Session.laps := Ok ex_laps_no_time;
     Session.race_control_messages := Ok ex_messages |}.

(** A race-control log without a [Category] column. *)
Definition ex_messages_plain : DataFrame :=
  {| columns := ["Time"; "Message"];
     rows := [[seconds 5; VStr "GREEN LIGHT - PIT EXIT OPEN"]] |}.

Definition ex_session_plain : Session.t :=
  {| Session.results := Ok ex_results;
     Session.track_status := Ok ex_track_status;
     Session.laps := Ok ex_laps;
     Session.race_control_messages := Ok ex_messages_plain |}.

(** A session announced but not yet run: every table is empty. *)
Definition ex_session_empty : Session.t :=
  {| Session.results := Ok {| columns := columns ex_results; rows := [] |};
     Session.track_status := Ok {| columns := columns ex_track_status; rows := [] |};
     Session.laps := Ok {| columns := columns ex_laps; rows := [] |};
     Session.race_control_messages :=
       Ok {| columns := columns ex_messages; rows := [] |} |}.

(** A session whose race-control log was not loaded. *)
Definition ex_session_no_messages : Session.t :=
  {| Session.results := Ok ex_results;
     Session.track_status := Ok ex_track_status;
     Session.laps := Ok ex_laps;
     Session.race_control_messages :=
       Raise (CollaboratorError "DataNotLoadedError") |}.

(** A session whose track-status log was not loaded. *)
Definition ex_session_track_not_loaded : Session.t :=
  {| Session.results := Ok ex_results;
     Session.track_status := Raise (CollaboratorError "DataNotLoadedError");
     Session.laps := Ok ex_laps;
     Session.race_control_messages := Ok ex_messages |}.

(** The server holding the data of [ex_session_no_out] with [ex_session]
    as its current session. *)
Definition ex_stale : Globals :=
  {| current_session := Some ex_session;
     session_data :=
       session_data (@update_session_data sample_pandas "2024-12-01T10:00:00"
                       (loaded ex_session_no_out)).2 |}.

(** The server after a start-up at which the collaborator failed. *)
Definition ex_not_started : Globals :=
  (@load_session sample_pandas world_unknown_event
     (VInt 2024) (VStr "Abu Dhabi") (VStr "R") initial_globals).2.

(** ** Properties of the snapshot, as the statements below use them *)

Section properties.
Context `{Pandas}.

(** Ascending by [lap_time_seconds]. *)
Definition seconds_le (a b : LapRecord) : Prop :=
  (lap_time_seconds a <= lap_time_seconds b)%Q.

(** The row has a recorded value in [col]. *)
Definition recorded (col : string) (row : Series) : Prop :=
  notna (series_get row col VNaN) = true.

#[global] Instance recorded_dec col row : Decision (recorded col row).
Proof. unfold recorded. apply _. Defined.

(** Ascending by the [LapTime] cell. *)
Definition lap_time_le (r1 r2 : Series) : Prop :=
  key_leb (series_get r1 "LapTime" VNaN) (series_get r2 "LapTime" VNaN) = true.

(** [laps] is a list of lap records derived from the lap log [log]:
    the rows with a recorded lap time, in some ascending order, cut
    after the tenth, one record per row. *)
Definition fastest_of (log : DataFrame) (laps : list LapRecord) : Prop :=
  ∃ ranked : list Series,
    ranked ≡ₚ filter (recorded "LapTime") (iterrows log) ∧
    Sorted lap_time_le ranked ∧
    Forall2 (λ row lap, lap_record row = Ok lap) (take 10 ranked) laps.

(** The raw status code of the row is the string [s]. *)
Definition status_is (s : string) (row : Series) : Prop :=
  series_get row "Status" VNaN = VStr s.

#[global] Instance status_is_dec s row : Decision (status_is s row).
Proof. unfold status_is. apply _. Defined.

(** [stop] is the pit-stop record of the lap-log row [row]. *)
Definition pit_stop_of (row : Series) (stop : PitStopRecord) : Prop :=
  getitem row "Driver" = Ok (pit_driver stop) ∧
  getitem row "Team" = Ok (pit_team stop) ∧
  getitem row "LapNumber" ≫= py_int = Ok (pit_lap_number stop) ∧
  (pit_duration stop = None ↔ contains row "PitOutTime" = false) ∧
  (contains row "PitOutTime" = true →
   ∃ out inn d,
     getitem row "PitOutTime" = Ok out ∧ getitem row "PitInTime" = Ok inn ∧
     py_sub out inn = Ok d ∧ pit_duration stop = Some (py_str d)).

(** [event] is the track-status record of the row [row], and the row's
    code is not the string "1". *)
Definition track_event_of (row : Series) (event : TrackStatusEvent) : Prop :=
  ∃ time code,
    getitem row "Time" = Ok time ∧ getitem row "Status" = Ok code ∧
    code ≠ VStr "1" ∧
    ts_time event = py_str time ∧
    ts_status event = status_label (py_str code) ∧
    ts_status_code event = py_str code.

(** The label table as the specification lists it. *)
Definition label_table (code : string) : string :=
  if decide (code = "1") then "Green Flag"
  else if decide (code = "2") then "Yellow Flag"
  else if decide (code = "4") then "Safety Car"
  else if decide (code = "5") then "Red Flag"
  else if decide (code = "6") then "Virtual Safety Car"
  else if decide (code = "7") then "VSC Ending"
  else "Unknown".

(** Every successful load leaves a timestamp and as many positions as
    the results table has rows. *)
Definition load_fills_snapshot (w : World) (year event_name session_type : value)
    (g : Globals) : Prop :=
  ∀ g', load_session w year event_name session_type g = (Ok true, g') →
    last_update (session_data g') ≠ None ∧
    ∀ session results,
      current_session g' = Some session →
      Session.results session = Ok results →
      length (positions (session_data g')) = length (rows results).

(** [/api/fastest-laps?limit=N] returns [min(N, len(fastest_laps))]
    entries. *)
Definition limit_gives_min (args : gmap string string) (g : Globals) : Prop :=
  Z.of_nat (length (dr_data (get_fastest_laps args g)))
  = Z.min (args_get_int args "limit" 5)
          (Z.of_nat (length (fastest_laps (session_data g)))).

End properties.

(** ** Further properties of the entries and the replies *)

Section more_properties.
Context `{Pandas}.

(** [r] is the entry built from the row [row] of the results table. *)
Definition driver_of (row : Series) (r : DriverResult) : Prop :=
  getitem row "Position" ≫= py_int = Ok (pos_position r) ∧
  getitem row "Abbreviation" = Ok (pos_driver r) ∧
  getitem row "FullName" = Ok (pos_full_name r) ∧
  getitem row "TeamName" = Ok (pos_team r) ∧
  getitem row "DriverNumber" ≫= py_int = Ok (pos_number r) ∧
  getitem row "Status" = Ok (pos_status r) ∧
  (pos_grid_position r = None ↔ contains row "GridPosition" = false) ∧
  (contains row "GridPosition" = true →
   ∃ z, getitem row "GridPosition" ≫= py_int = Ok z ∧
        pos_grid_position r = Some z).

(** [m] is the entry built from the row [row] of the race-control log. *)
Definition message_of (row : Series) (m : Message) : Prop :=
  (∃ t, getitem row "Time" = Ok t ∧ msg_time m = py_str t) ∧
  getitem row "Message" = Ok (msg_message m) ∧
  (contains row "Category" = false → msg_category m = VStr "Other") ∧
  (contains row "Category" = true →
   getitem row "Category" = Ok (msg_category m)).

(** The three arguments [load_session_endpoint] reads from a body. *)
Definition body_year (data : gmap string value) : value :=
  default (VInt 2024) (data !! "year").
Definition body_event (data : gmap string value) : value :=
  default (VStr "Abu Dhabi") (data !! "event").
Definition body_session_type (data : gmap string value) : value :=
  default (VStr "R") (data !! "session_type").

(** The collaborator delivers [session] for these arguments. *)
Definition delivers (w : World) (year event_name session_type : value)
    (session : Session.t) : Prop :=
  ∃ handle, get_session w year event_name session_type = Ok handle ∧
            load w handle = Ok session.

(** The collaborator fails for these arguments. *)
Definition fails (w : World) (year event_name session_type : value) : Prop :=
  (∃ e, get_session w year event_name session_type = Raise e) ∨
  (∃ handle e, get_session w year event_name session_type = Ok handle ∧
               load w handle = Raise e).

(** The five lists and the timestamp agree in [d] and [d']. *)
Definition same_lists (d d' : SessionData) : Prop :=
  positions d' = positions d ∧ track_status d' = track_status d ∧
  fastest_laps d' = fastest_laps d ∧ pit_stops d' = pit_stops d ∧
  race_control_messages d' = race_control_messages d.

(** The [LapTime] cell of a row, in nanoseconds, when it is a
    timedelta. *)
Definition lap_time_ns (row : Series) : option Z :=
  match series_get row "LapTime" VNaN with
  | VTimedelta ns => Some ns
  | _ => None
  end.

(** [a] is a lap no slower than [b], both with a lap time. *)
Definition no_slower (a b : Series) : Prop :=
  ∃ x y, lap_time_ns a = Some x ∧ lap_time_ns b = Some y ∧ (x ≤ y)%Z.

(** [laps] is what the fastest-lap block derives from the lap log
    [log]: the rows with a recorded lap time, ranked by ascending lap
    time, the first ten of them, one record per row. *)
Definition fastest_ten_of (log : DataFrame) (laps : list LapRecord) : Prop :=
  ∃ ranked : list Series,
    ranked ≡ₚ filter (recorded "LapTime") (iterrows log) ∧
    StronglySorted no_slower ranked ∧
    Forall2 (λ row lap, lap_record row = Ok lap) (take 10 ranked) laps.




End more_properties.

(** * Proofs *)

(** ** The builtins on concrete inputs *)

Example int_of_string_plain : int_of_string "55" = Some 55.
Proof. reflexivity. Qed.

Example int_of_string_spaces_sign_underscore : int_of_string " -1_0 " = Some (-10).
Proof. reflexivity. Qed.

Example int_of_string_leading_zeros : int_of_string "007" = Some 7.
Proof. reflexivity. Qed.

Example int_of_string_rejects :
  int_of_string <$> [""; "-"; "1__0"; "_5"; "5_"; "+-5"; "1 0"; "1.0"; "five"]
  = [None; None; None; None; None; None; None; None; None].
Proof. reflexivity. Qed.

(** Decimal digits of other scripts and the spaces of Unicode are read
    as [int] reads them: Arabic-Indic three, Devanagari twelve, a
    no-break space and an ideographic space around 7. *)
Example int_of_string_unicode :
  int_of_string "٣" = Some 3 ∧ int_of_string "१२" = Some 12 ∧
  int_of_string " 7　" = Some 7 ∧ int_of_string "-٣٤" = Some (-34).
Proof. by vm_compute. Qed.

(** A numeral of 4300 digits is read, one of 4301 digits is not,
    leading zeros included. *)
Example int_of_string_digit_limit :
  int_of_string (ones 4300) = Some ((10 ^ 4300 - 1) / 9) ∧
  int_of_string ("-" +:+ ones 4300) = Some (- ((10 ^ 4300 - 1) / 9)) ∧
  int_of_string (ones 4301) = None ∧
  int_of_string ("-" +:+ ones 4301) = None ∧
  int_of_string ("000" +:+ ones 4298) = None.
Proof. by vm_compute. Qed.

Example slice_to_examples :
  slice_to 2 [1; 2; 3; 4] = [1; 2] ∧ slice_to 9 [1; 2; 3; 4] = [1; 2; 3; 4] ∧
  slice_to 0 [1; 2; 3; 4] = [] ∧ slice_to (-1) [1; 2; 3; 4] = [1; 2; 3] ∧
  slice_to (-9) [1; 2; 3; 4] = [].
Proof. by vm_compute. Qed.

Example args_get_int_examples :
  args_get_int ∅ "limit" 5 = 5 ∧
  args_get_int {[ "limit" := "3" ]} "limit" 5 = 3 ∧
  args_get_int {[ "limit" := "three" ]} "limit" 5 = 5 ∧
  args_get_int {[ "limit" := "-1" ]} "limit" 5 = -1.
Proof. by vm_compute. Qed.

Example py_int_examples :
  @py_int sample_pandas <$> [VFloat 3; VFloat (-3 # 2); VStr "44"; VNaN; VNone]
  = [Ok 3; Ok (-1); Ok 44; Raise ValueError; Raise TypeError].
Proof. reflexivity. Qed.

Example sample_timedelta_str_examples :
  sample_timedelta_str <$> [92500000000; 87000000000; -1]
  = ["0 days 00:01:32.500000"; "0 days 00:01:27"; "-1 days +23:59:59.999999999"].
Proof. by vm_compute. Qed.

Example hasattr_examples :
  hasattr (Ok 1) = Ok true ∧
  hasattr (A:=Z) (Raise AttributeError) = Ok false ∧
  hasattr (A:=Z) (Raise ValueError) = Raise ValueError.
Proof. done. Qed.

(** ** Fallible computations and [mapM] *)

Lemma result_bind_ok {A B} (r : result A) (f : A → result B) b :
  r ≫= f = Ok b ↔ ∃ a, r = Ok a ∧ f a = Ok b.
Proof.
  destruct r as [a|e]; simpl; split.
  - intros Hf. by exists a.
  - by intros (a' & [= ->] & Hf).
  - done.
  - by intros (a' & ? & _).
Qed.

Lemma result_fmap_ok {A B} (r : result A) (f : A → B) b :
  f <$> r = Ok b ↔ ∃ a, r = Ok a ∧ b = f a.
Proof.
  destruct r as [a|e]; simpl; split.
  - intros [= <-]. by exists a.
  - by intros (a' & [= ->] & ->).
  - done.
  - by intros (a' & ? & _).
Qed.

Lemma mapM_ok_Forall2 {A B} (f : A → result B) l l' :
  mapM f l = Ok l' ↔ Forall2 (λ x y, f x = Ok y) l l'.
Proof.
  revert l'. induction l as [|x l IH]; intros l'; simpl.
  - split; [intros [= <-]; constructor | by inversion 1].
  - split.
    + intros Hm. destruct (f x) as [y|] eqn:Hx; [|done]. simpl in Hm.
      destruct (mapM f l) as [k|] eqn:Hl; [|done]. simpl in Hm.
      injection Hm as <-. constructor; [done|]. by apply IH.
    + inversion 1 as [|? y ? k Hx Hl]; subst. rewrite Hx. simpl.
      apply IH in Hl. by rewrite Hl.
Qed.

Lemma mapM_ok_length {A B} (f : A → result B) l l' :
  mapM f l = Ok l' → length l' = length l.
Proof. intros Hm%mapM_ok_Forall2. symmetry. by eapply Forall2_length. Qed.

Lemma mapM_raise {A B} (f : A → result B) l x e :
  x ∈ l → f x = Raise e → ∃ e', mapM f l = Raise e'.
Proof.
  intros Hin Hx. induction Hin as [x l|x y l Hin IH]; simpl.
  - rewrite Hx. by eexists.
  - destruct (f y); simpl; [|by eexists].
    destruct (IH Hx) as [e' ->]. by eexists.
Qed.

(** ** The pass as five extractions in order *)

(** Case analysis on the next fallible step of a computation. *)
Ltac run_result :=
  simpl;
  match goal with
  | |- context [match ?r with Ok _ => _ | Raise _ => _ end] =>
      lazymatch r with
      | context [match _ with Ok _ => _ | Raise _ => _ end] => fail
      | _ => destruct r as [[]|] || destruct r
      end
  | |- context [match ?r with Some _ => _ | None => _ end] => destruct r
  | |- context [if ?b then _ else _] => destruct b
  end; simpl; try done.

(** The five extraction results of a session, named. *)
Ltac extractions session :=
  destruct (extract_positions session) as [p|e1] eqn:Hpos;
  destruct (extract_track_status session) as [[events|]|e2] eqn:Hts;
  destruct (extract_fastest_laps session) as [laps|e3] eqn:Hfl;
  destruct (extract_pit_stops session) as [stops|e4] eqn:Hps;
  destruct (extract_race_control session) as [[messages|]|e5] eqn:Hrc.

(** Refuting "no extraction up to here raises" with one that does. *)
Ltac pass_contra Hall :=
  exfalso;
  let close c := solve [ apply (Hall c); simpl; first [ lia | by eexists ] ] in
  first [ close Positions | close TrackStatus | close FastestLaps
        | close PitStops | close RaceControl ].

Section pass.
Context `{Pandas}.

Lemma update_body_run session now g :
  update_body session now g =
    match extract_positions session with
    | Raise e => (Raise e, g)
    | Ok p =>
      let g1 := assign (set_positions p) g in
      match extract_track_status session with
      | Raise e => (Raise e, g1)
      | Ok events =>
        let g2 := from_option (λ ts, assign (set_track_status ts) g1) g1 events in
        match extract_fastest_laps session with
        | Raise e => (Raise e, g2)
        | Ok laps =>
          let g3 := assign (set_fastest_laps laps) g2 in
          match extract_pit_stops session with
          | Raise e => (Raise e, g3)
          | Ok stops =>
            let g4 := assign (set_pit_stops stops) g3 in
            match extract_race_control session with
            | Raise e => (Raise e, g4)
            | Ok messages =>
              let g5 :=
                from_option (λ ms, assign (set_race_control_messages ms) g4)
                            g4 messages in
              (Ok (), assign (set_last_update (Some now)) g5)
            end
          end
        end
      end
    end.
Proof.
  unfold update_body, extract_positions, extract_track_status,
    extract_fastest_laps, extract_pit_stops, extract_race_control.
  unfold mbind, M_bind, lift; simpl.
  repeat run_result; done.
Qed.

Lemma update_session_data_none now g :
  current_session g = None → update_session_data now g = (Ok (), g).
Proof.
  intros Hc. unfold update_session_data, mbind, M_bind, get_current_session.
  by rewrite Hc.
Qed.

Lemma update_session_data_some session now g :
  current_session g = Some session →
  update_session_data now g = (Ok (), (update_body session now g).2).
Proof.
  intros Hc. unfold update_session_data, mbind, M_bind, get_current_session.
  rewrite Hc. unfold try_except.
  by destruct (update_body session now g) as [[[]|e] g'].
Qed.

Lemma pass_in_order g session now :
  current_session g = Some session →
  let run := update_session_data now g in
  let d := session_data g in
  let d' := session_data run.2 in
  run.1 = Ok () ∧ current_session run.2 = Some session ∧
  is_live d' = is_live d ∧
  (∀ c, (∀ c', order c' ≤ order c → ¬ raises session c')%nat →
        (absent session c → kept c d d') ∧
        (¬ absent session c → updated session c d')) ∧
  (∀ c, (∃ c', order c' ≤ order c ∧ raises session c')%nat → kept c d d') ∧
  ((∀ c, ¬ raises session c) → last_update d' = Some now) ∧
  ((∃ c, raises session c) → last_update d' = last_update d).
Proof.
  intros Hc. simpl. rewrite (update_session_data_some session) by done.
  rewrite update_body_run. simpl.
  extractions session; simpl.
  all: split_and!; try done.
  all: try (intros c Hall; destruct c; simpl; split; try done;
            first [ congruence | pass_contra Hall ]).
  all: try (intros c (c' & Hle & Hr); destruct c, c'; simpl in *;
            first [ done | lia | destruct Hr; congruence ]).
  all: try (intros Hall; pass_contra Hall).
  all: try (intros ([] & Hr); simpl in *; destruct Hr; congruence).
Qed.

End pass.

(** ** Loading, refreshing and the read handlers *)

Section handlers.
Context `{Pandas}.

Lemma update_session_data_ok now g : (update_session_data now g).1 = Ok ().
Proof.
  destruct (current_session g) as [session|] eqn:Hc.
  - by rewrite (update_session_data_some session).
  - by rewrite update_session_data_none.
Qed.

Lemma update_session_data_current now g :
  current_session (update_session_data now g).2 = current_session g.
Proof.
  destruct (current_session g) as [session|] eqn:Hc.
  - by destruct (pass_in_order g session now Hc) as (_ & -> & _).
  - by rewrite update_session_data_none.
Qed.

Lemma update_session_data_is_live now g :
  is_live (session_data (update_session_data now g).2) = is_live (session_data g).
Proof.
  destruct (current_session g) as [session|] eqn:Hc.
  - by destruct (pass_in_order g session now Hc) as (_ & _ & -> & _).
  - by rewrite update_session_data_none.
Qed.

Lemma load_session_run w year event_name session_type g :
  load_session w year event_name session_type g =
    match get_session w year event_name session_type with
    | Raise _ => (Ok false, g)
    | Ok handle =>
        match load w handle with
        | Raise _ => (Ok false, g)
        | Ok session =>
            (Ok true,
             (update_session_data (clock w)
                (assign (set_current_session session) g)).2)
        end
    end.
Proof.
  unfold load_session, try_except, mbind, M_bind, lift. simpl.
  destruct (get_session w _ _ _) as [handle|]; simpl; [|done].
  destruct (load w handle) as [session|]; simpl; [|done].
  unfold assign. simpl.
  destruct (update_session_data _ _) as [r g'] eqn:Hrun.
  pose proof (update_session_data_ok (clock w)
    {| current_session := Some session; session_data := session_data g |}) as Hok.
  rewrite Hrun in Hok. simpl in Hok. by subst r.
Qed.

Lemma load_session_endpoint_state w body g :
  (load_session_endpoint w body g).2 = g ∨
  ∃ year event_name session_type,
    (load_session_endpoint w body g).2
    = (load_session w year event_name session_type g).2.
Proof.
  unfold load_session_endpoint, mbind, M_bind, lift. simpl.
  destruct body as [data|]; simpl; [|by left].
  right.
  exists (default (VInt 2024) (data !! "year")),
    (default (VStr "Abu Dhabi") (data !! "event")),
    (default (VStr "R") (data !! "session_type")).
  destruct (load_session w _ _ _ g) as [[[]|] g']; done.
Qed.

Lemma refresh_data_state now g :
  (refresh_data now g).2 = (update_session_data now g).2.
Proof.
  unfold refresh_data, mbind, M_bind, get_current_session. simpl.
  destruct (current_session g) as [session|] eqn:Hc.
  - destruct (update_session_data now g) as [[[]|] g']; done.
  - by rewrite update_session_data_none.
Qed.

(** Every write to the globals goes through [update_session_data] or
    replaces the session handle. *)
Lemma reachable_ind_update (P : Globals → Prop) :
  P initial_globals →
  (∀ now g, P g → P (update_session_data now g).2) →
  (∀ session g, P g → P (assign (set_current_session session) g)) →
  ∀ g, reachable g → P g.
Proof.
  intros Hinit Hupd Hset.
  assert (Hload : ∀ w y e s g, P g → P (load_session w y e s g).2).
  { intros w y e s g Hg. rewrite load_session_run.
    destruct (get_session w _ _ _) as [handle|]; [|done].
    destruct (load w handle) as [session|]; [|done].
    simpl. by apply Hupd, Hset. }
  induction 1 as [|w g _ IH|w body g _ IH|now g _ IH].
  - done.
  - by apply Hload.
  - destruct (load_session_endpoint_state w body g) as [->|(y & e & s & ->)];
      [done|by apply Hload].
  - rewrite refresh_data_state. by apply Hupd.
Qed.

End handlers.

(** ** Tables *)

Lemma filter_fmap {A B} (f : A → B) (P : B → Prop) `{!∀ y, Decision (P y)}
    (l : list A) :
  filter P (f <$> l) = f <$> filter (λ x, P (f x)) l.
Proof.
  induction l as [|x l IH]; [done|]. rewrite fmap_cons, !filter_cons.
  destruct (decide (P (f x))); by rewrite IH.
Qed.

Lemma Forall_filter_self {A} (P : A → Prop) `{!∀ x, Decision (P x)} (l : list A) :
  Forall P (filter P l).
Proof. apply Forall_forall. by intros x [? _]%list_elem_of_filter. Qed.

Lemma Forall2_with_Forall {A B} (P : A → B → Prop) (Q : A → Prop) l k :
  Forall Q l → Forall2 P l k → Forall2 (λ x y, Q x ∧ P x y) l k.
Proof.
  intros HQ HP. induction HP; [constructor|].
  inversion HQ; subst. constructor; auto.
Qed.

Lemma getitem_series_get row key v dflt :
  getitem row key = Ok v → series_get row key dflt = v.
Proof.
  unfold getitem, series_get. by destruct (series_lookup row key); intros [= ->].
Qed.

Lemma series_lookup_contains row key :
  series_lookup row key = None ↔ contains row key = false.
Proof.
  unfold series_lookup, contains. rewrite bool_decide_eq_false.
  destruct (list_find _ (index row)) as [[i k]|] eqn:Hfind; simpl.
  - apply list_find_Some in Hfind as (Hi & -> & _).
    split; [done|]. intros Hnot. destruct Hnot.
    by eapply list_elem_of_lookup_2.
  - apply list_find_None in Hfind. split; [|done]. intros _ Hin.
    by eapply Forall_forall in Hfind.
Qed.

Lemma df_where_rows df col p df' :
  df_where df col p = Ok df' →
  columns df' = columns df ∧
  iterrows df' = filter (λ row, p (series_get row col VNaN) = true) (iterrows df).
Proof.
  unfold df_where. case_bool_decide; [|done]. intros [= <-]. split; [done|].
  unfold iterrows. simpl. by rewrite filter_fmap.
Qed.

Lemma ne_str_spec v s : ne_str v s = true ↔ v ≠ VStr s.
Proof.
  destruct v as [|s'| | | | |]; simpl; try by split.
  rewrite negb_true_iff, String.eqb_neq. split; congruence.
Qed.

(** ** Sorting *)

Lemma key_leb_total a b : key_leb a b = true ∨ key_leb b a = true.
Proof.
  assert (Hq : ∀ x y : Q, Qle_bool x y = true ∨ Qle_bool y x = true).
  { intros x y. rewrite !Qle_bool_iff.
    destruct (Qlt_le_dec x y) as [?%Qlt_le_weak|?]; auto. }
  destruct a, b; simpl; auto using String.leb_total.
  rewrite !bool_decide_eq_true. lia.
Qed.

#[global] Instance row_le_total df col : Total (row_le df col).
Proof. intros r1 r2. apply key_leb_total. Qed.

Lemma filter_all {A} (P : A → Prop) `{!∀ x, Decision (P x)} (l : list A) :
  Forall P l → filter P l = l.
Proof.
  induction 1 as [|x l Hx _ IH]; [done|].
  rewrite filter_cons, decide_True by done. by rewrite IH.
Qed.

Lemma filter_none {A} (P : A → Prop) `{!∀ x, Decision (P x)} (l : list A) :
  Forall P l → filter (λ x, ¬ P x) l = [].
Proof.
  induction 1 as [|x l Hx _ IH]; [done|].
  rewrite filter_cons, decide_False by auto. by rewrite IH.
Qed.

Lemma Sorted_take {A} (R : relation A) n l : Sorted R l → Sorted R (take n l).
Proof.
  intros Hl. revert n. induction Hl as [|x l Hl IH Hhd]; intros [|n]; simpl;
    try constructor; auto.
  destruct Hhd, n; simpl; by constructor.
Qed.

Lemma Sorted_Forall2 {A B} (R : relation A) (R' : relation B)
    (P : A → B → Prop) l k :
  (∀ x y x' y', P x x' → P y y' → R x y → R' x' y') →
  Sorted R l → Forall2 P l k → Sorted R' k.
Proof.
  intros Hmono Hl HP. induction HP as [|x x' l k Hx HP IH]; [constructor|].
  apply Sorted_inv in Hl as [Hl Hhd]. constructor; [auto|].
  destruct HP as [|y y' l k Hy _]; constructor.
  inversion Hhd; subst. eauto.
Qed.

(** Sorting a frame that was filtered on [col] with [notna]. *)
Lemma sort_values_where log col with_time sorted :
  df_where log col notna = Ok with_time →
  sort_values with_time col = Ok sorted →
  columns sorted = columns log ∧
  rows sorted ≡ₚ filter (λ vals, notna (cell log col vals) = true) (rows log) ∧
  Sorted (row_le log col) (rows sorted).
Proof.
  unfold df_where, sort_values. case_bool_decide; [|done]. intros [= <-].
  simpl. rewrite bool_decide_eq_true_2 by done.
  change (cell {| columns := columns log; rows := _ |} col) with (cell log col).
  set (kept_rows := filter _ (rows log)).
  assert (Hall : Forall (λ vals, notna (cell log col vals) = true) kept_rows)
    by apply Forall_filter_self.
  rewrite (filter_all _ kept_rows Hall).
  rewrite (filter_none (λ vals, notna (cell log col vals) = true) kept_rows Hall).
  destruct (comparable _); [|done]. intros [= <-]. simpl.
  rewrite app_nil_r. split_and!; [done|apply merge_sort_Permutation|].
  apply (Sorted_merge_sort (row_le log col)).
Qed.

Lemma sort_values_where_comparable log col with_time sorted :
  df_where log col notna = Ok with_time →
  sort_values with_time col = Ok sorted →
  comparable (cell log col <$>
              filter (λ vals, notna (cell log col vals) = true) (rows log))
  = true.
Proof.
  unfold df_where, sort_values. case_bool_decide; [|done]. intros [= <-].
  simpl. rewrite bool_decide_eq_true_2 by done.
  change (cell {| columns := columns log; rows := _ |} col) with (cell log col).
  set (kept_rows := filter _ (rows log)).
  assert (Hall : Forall (λ vals, notna (cell log col vals) = true) kept_rows)
    by apply Forall_filter_self.
  rewrite (filter_all _ kept_rows Hall).
  by destruct (comparable _).
Qed.

Lemma comparable_kinds keys k k' :
  comparable keys = true → k ∈ keys → k' ∈ keys → kind_of k' = kind_of k.
Proof.
  destruct keys as [|k0 ks]; [by intros _ ?%elem_of_nil|].
  simpl. intros Hall%bool_decide_eq_true Hk Hk'.
  assert (Hk0 : ∀ x, x ∈ k0 :: ks → kind_of x = kind_of k0).
  { intros x [->|Hx]%elem_of_cons; [done|].
    by eapply Forall_forall in Hall. }
  by rewrite (Hk0 k), (Hk0 k').
Qed.

Lemma Sorted_strengthen {A} (R R' : relation A) (Q : A → Prop) l :
  (∀ x y, Q x → Q y → R x y → R' x y) →
  Forall Q l → Sorted R l → Sorted R' l.
Proof.
  intros Himpl HQ Hl. induction Hl as [|x l _ IH Hhd]; [constructor|].
  inversion HQ as [|? ? Hx HQl]; subst. constructor; [auto|].
  destruct Hhd as [|y l Hxy]; constructor.
  inversion HQl; subst. auto.
Qed.

#[local] Instance no_slower_transitive : Transitive no_slower.
Proof.
  intros a b c (x & y & Hx & Hy & Hxy) (y' & z & Hy' & Hz & Hyz).
  exists x, z. split_and!; [done|done|]. rewrite Hy in Hy'. simplify_eq. lia.
Qed.

(** ** Decimal numerals *)

(** [int] reads back the numeral that [str] writes for an integer, as
    long as it has no more digits than [int] converts. *)

Lemma digit_char_code d : (d < 10)%N → N_of_ascii (pretty_N_char d) = (48 + d)%N.
Proof.
  intros Hd.
  assert (d = 0 ∨ d = 1 ∨ d = 2 ∨ d = 3 ∨ d = 4 ∨ d = 5 ∨ d = 6 ∨ d = 7
          ∨ d = 8 ∨ d = 9)%N as Hcases by lia.
  repeat (destruct Hcases as [->|Hcases]; [done|]). by subst.
Qed.

Lemma digit_of_ascii d : (d < 10)%N → digit_of (48 + d) = Some (Z.of_N d).
Proof.
  intros Hd. unfold digit_of, digit_zeros. cbn [list_find].
  rewrite decide_True by lia. simpl. f_equal. lia.
Qed.

Lemma digit_not_space d : (d < 10)%N → is_space (48 + d) = false.
Proof.
  intros Hd. unfold is_space. apply bool_decide_eq_false. intros Hin.
  repeat (apply elem_of_cons in Hin as [Heq|Hin]; [lia|]).
  by apply elem_of_nil in Hin.
Qed.

Lemma utf8_decode_ascii (l : list ascii) :
  Forall (λ b, N_of_ascii b < 128)%N l → utf8_decode l = Some (N_of_ascii <$> l).
Proof.
  induction 1 as [|b l Hb _ IH]; [done|].
  cbn [utf8_decode]. apply N.ltb_lt in Hb. cbv zeta. rewrite Hb.
  by rewrite IH.
Qed.

Lemma strip_no_space (l : list N) :
  Forall (λ c, is_space c = false) l → strip l = l.
Proof.
  assert (Hl : ∀ k, Forall (λ c, is_space c = false) k → lstrip k = k).
  { intros k [|c k' Hc _]; [done|]. simpl. by rewrite Hc. }
  intros Hall. unfold strip. rewrite (Hl l Hall).
  rewrite Hl by (by apply Forall_reverse). apply reverse_involutive.
Qed.

Lemma string_length_chars (s : string) :
  String.length s = length (String.list_ascii_of_string s).
Proof. induction s as [|c s IH]; simpl; [done|by rewrite IH]. Qed.

(** The digits that [pretty_N_go] writes in front of [s]. *)
Lemma pretty_N_go_digits x s :
  ∃ ds : list N,
    String.list_ascii_of_string (pretty_N_go x s)
    = ((pretty_N_char <$> ds) ++ String.list_ascii_of_string s)%list ∧
    Forall (λ d, d < 10)%N ds ∧
    foldl (λ a d, 10 * a + d)%N 0%N ds = x ∧
    ((0 < x)%N → ds ≠ []).
Proof.
  revert s. induction (N.lt_wf_0 x) as [x _ IH]. intros s.
  destruct (decide (x = 0)%N) as [->|Hx].
  { exists []. rewrite pretty_N_go_0. split_and!; [done|constructor|done|lia]. }
  rewrite pretty_N_go_step by lia.
  destruct (IH (x `div` 10)%N) with (s := String (pretty_N_char (x `mod` 10)) s)
    as (ds & Hchars & Hall & Hval & _).
  { apply N.div_lt; lia. }
  exists ((ds ++ [x `mod` 10])%list)%N. split_and!.
  - rewrite Hchars. rewrite fmap_app. simpl. by rewrite <- app_assoc.
  - apply Forall_app. split; [done|]. repeat constructor.
    apply N.mod_lt. lia.
  - rewrite foldl_snoc, Hval. symmetry. apply N.div_mod. lia.
  - intros _. by destruct ds.
Qed.

Lemma digits_from_digits ds acc count prev rest :
  Forall (λ d, d < 10)%N ds →
  digits_from acc count prev ((((λ d, 48 + d)%N <$> ds) ++ rest)%list)
  = digits_from (foldl (λ a d, 10 * a + Z.of_N d)%Z acc ds)
      (count + length ds) (if ds is [] then prev else true) rest.
Proof.
  intros Hall. revert acc count prev.
  induction Hall as [|d ds Hd _ IH]; intros acc count prev.
  { simpl. by rewrite Nat.add_0_r. }
  rewrite fmap_cons. rewrite <- app_comm_cons. cbn [digits_from].
  rewrite digit_of_ascii by done. rewrite IH. cbn [foldl length].
  replace (S count + length ds)%nat with (count + S (length ds))%nat by lia.
  by destruct ds.
Qed.

Lemma foldl_digits_Z ds (a : N) :
  foldl (λ a d, 10 * a + Z.of_N d)%Z (Z.of_N a) ds
  = Z.of_N (foldl (λ a d, 10 * a + d)%N a ds).
Proof.
  revert a. induction ds as [|d ds IH]; intros a; [done|]. simpl.
  rewrite <- IH. f_equal. lia.
Qed.

(** Reading the numeral of a positive number, with or without a
    minus sign in front: the number, unless the numeral has more
    digits than [int] converts. *)
Lemma int_of_string_numeral (x : N) (minus : bool) :
  (0 < x)%N →
  int_of_string ((if minus then "-" else "") +:+ pretty_N_go x "")
  = if bool_decide (String.length (pretty_N_go x "") ≤ int_max_str_digits)%nat
    then Some (if minus then - Z.of_N x else Z.of_N x)%Z
    else None.
Proof.
  intros Hx.
  destruct (pretty_N_go_digits x "") as (ds & Hchars & Hall & Hval & Hne).
  specialize (Hne Hx). simpl in Hchars. rewrite app_nil_r in Hchars.
  assert (Hlen : String.length (pretty_N_go x "") = length ds).
  { by rewrite string_length_chars, Hchars, length_fmap. }
  rewrite Hlen.
  assert (Hcodes : N_of_ascii <$> (pretty_N_char <$> ds) = (λ d, 48 + d)%N <$> ds).
  { rewrite <- list_fmap_compose. apply Forall_fmap_ext.
    eapply Forall_impl; [exact Hall|]. intros d Hd. by apply digit_char_code. }
  assert (Hascii : Forall (λ b, N_of_ascii b < 128)%N (pretty_N_char <$> ds)).
  { apply Forall_fmap. eapply Forall_impl; [exact Hall|]. intros d Hd.
    unfold compose. cbv beta in *. rewrite digit_char_code by done. lia. }
  assert (Hnospace : Forall (λ c, is_space c = false) ((λ d, 48 + d)%N <$> ds)).
  { apply Forall_fmap. eapply Forall_impl; [exact Hall|]. intros d Hd.
    unfold compose. cbv beta in *. by apply digit_not_space. }
  assert (Hread : ∀ prev,
            digits_from 0 0 prev ((λ d, 48 + d)%N <$> ds)
            = if bool_decide (length ds ≤ int_max_str_digits)%nat
              then Some (Z.of_N x) else None).
  { intros prev.
    rewrite <- (app_nil_r (_ <$> ds)), digits_from_digits by done.
    destruct ds as [|d ds']; [done|]. cbn [digits_from andb].
    rewrite Nat.add_0_l. case_bool_decide; [|done].
    rewrite <- Hval. f_equal. apply (foldl_digits_Z _ 0%N). }
  unfold int_of_string. destruct minus.
  - change (String.list_ascii_of_string ("-" +:+ pretty_N_go x ""))
      with ("-"%char :: String.list_ascii_of_string (pretty_N_go x "")).
    rewrite Hchars.
    rewrite (utf8_decode_ascii ("-"%char :: _))
      by (constructor; [done|exact Hascii]).
    cbn [fmap list_fmap]. fold (list_fmap _ _ N_of_ascii (pretty_N_char <$> ds)).
    change (list_fmap _ _ N_of_ascii (pretty_N_char <$> ds))
      with (N_of_ascii <$> (pretty_N_char <$> ds)).
    rewrite Hcodes.
    rewrite strip_no_space by (constructor; [done|exact Hnospace]).
    change (N_of_ascii "-") with 45%N.
    rewrite bool_decide_eq_true_2 by done. rewrite Hread.
    by case_bool_decide.
  - change ("" +:+ pretty_N_go x "") with (pretty_N_go x "").
    rewrite Hchars, utf8_decode_ascii, Hcodes by done.
    rewrite strip_no_space by done.
    destruct ds as [|d ds'] eqn:Hds; [done|]. rewrite <- Hds in *.
    assert (Hd : (d < 10)%N) by (subst ds; by inversion Hall).
    assert (Hhead : (λ d, 48 + d)%N <$> ds = (48 + d)%N :: ((λ d, 48 + d)%N <$> ds'))
      by (by rewrite Hds).
    rewrite Hhead.
    rewrite !bool_decide_eq_false_2 by lia.
    rewrite <- Hhead. apply Hread.
Qed.

(** [int] reads the decimal numeral of [z] as [z] when the numeral has
    at most 4300 digits ... *)
Lemma int_of_string_pretty (z : Z) :
  (String.length (pretty (Z.abs z)) ≤ int_max_str_digits)%nat →
  int_of_string (pretty z) = Some z.
Proof.
  destruct z as [|p|p]; intros Hlen.
  - by vm_compute.
  - pose proof (int_of_string_numeral (N.pos p) false) as Hread.
    rewrite bool_decide_eq_true_2 in Hread by exact Hlen.
    apply Hread. lia.
  - pose proof (int_of_string_numeral (N.pos p) true) as Hread.
    rewrite bool_decide_eq_true_2 in Hread by exact Hlen.
    apply Hread. lia.
Qed.

(** ... and raises [ValueError] when it has more. *)
Lemma int_of_string_pretty_long (z : Z) :
  (int_max_str_digits < String.length (pretty (Z.abs z)))%nat →
  int_of_string (pretty z) = None.
Proof.
  destruct z as [|p|p]; intros Hlen.
  - vm_compute in Hlen. lia.
  - pose proof (int_of_string_numeral (N.pos p) false) as Hread.
    rewrite bool_decide_eq_false_2 in Hread
      by (change (pretty_N_go (N.pos p) "") with (pretty (Z.abs (Z.pos p))); lia).
    apply Hread. lia.
  - pose proof (int_of_string_numeral (N.pos p) true) as Hread.
    rewrite bool_decide_eq_false_2 in Hread
      by (change (pretty_N_go (N.pos p) "") with (pretty (Z.abs (Z.neg p))); lia).
    apply Hread. lia.
Qed.

(** ** Slices *)

Lemma slice_to_nonneg {A} (n : Z) (l : list A) :
  (0 ≤ n)%Z → slice_to n l = take (Z.to_nat n) l.
Proof. intros Hn. unfold slice_to. by rewrite bool_decide_eq_true_2. Qed.

Lemma slice_to_negative {A} (n : Z) (l : list A) :
  (n < 0)%Z → slice_to n l = take (length l - Z.to_nat (- n)) l.
Proof. intros Hn. unfold slice_to. rewrite bool_decide_eq_false_2; [done|lia]. Qed.

(** * The claims *)

Section claims.
Context `{Pandas}.

(** ** C3: a failed load *)

(** C3.  When the collaborator fails, in [get_session] or in the
    session's [load], [load_session] returns [False] as a normal result
    (no exception reaches the caller) and both globals, the snapshot and
    the session handle, are what they were before the call. *)
Theorem load_failure_leaves_state w year event_name session_type g :
  (∃ e, get_session w year event_name session_type = Raise e) ∨
  (∃ handle e, get_session w year event_name session_type = Ok handle ∧
               load w handle = Raise e) →
  load_session w year event_name session_type g = (Ok false, g).
Proof.
  intros Hfail. rewrite load_session_run.
  destruct Hfail as [[e ->]|(handle & e & -> & ->)]; done.
Qed.

(** ** C6: refresh with nothing loaded *)

(** C6.  With no current session, [POST /api/refresh] answers HTTP 400
    with [success: False] and leaves every field of the snapshot as it
    was. *)
Theorem refresh_without_session now g :
  current_session g = None →
  refresh_data now g =
    (Ok {| mr_code := 400; mr_success := false;
           mr_message := "No session loaded"; mr_extra := None |}, g).
Proof.
  intros Hc. unfold refresh_data, mbind, M_bind, get_current_session.
  by rewrite Hc.
Qed.

(** ** C7: the top three *)

(** C7.  In every state [GET /api/top3] returns [min 3 (len positions)]
    entries, and they are the first entries, in order, of what
    [GET /api/positions] returns. *)
Theorem top3_is_prefix_of_positions g :
  length (dr_data (get_top3 g)) = min 3 (length (positions (session_data g))) ∧
  dr_data (get_top3 g) = take 3 (dr_data (get_positions g)).
Proof.
  unfold get_top3, get_positions, data_reply. cbn [dr_data].
  case_bool_decide as Hlen.
  - rewrite slice_to_nonneg by done. change (Z.to_nat 3) with 3%nat.
    split; [rewrite length_take; lia | done].
  - rewrite take_ge by lia. split; [lia | done].
Qed.

(** ** C9: the liveness flag *)

(** C9.  [is_live] starts false and nothing writes it: in every state
    the server can reach it is false, and [/api/status] reports it
    false. *)
Theorem is_live_always_false g :
  reachable g →
  is_live (session_data g) = false ∧ st_is_live (get_status g) = false.
Proof.
  intros Hg. cut (is_live (session_data g) = false); [done|].
  revert g Hg. apply reachable_ind_update.
  - done.
  - intros now g Hg. by rewrite update_session_data_is_live.
  - done.
Qed.

(** ** C10: a position or car number that is not an integer *)

Lemma driver_result_conversion row v e :
  getitem row "Position" = Ok v ∨ getitem row "DriverNumber" = Ok v →
  py_int v = Raise e →
  ∃ e', driver_result row = Raise e'.
Proof.
  intros Hcell Hint. unfold driver_result.
  destruct Hcell as [Hv|Hv].
  - rewrite Hv. simpl. rewrite Hint. by eexists.
  - destruct (getitem row "Position" ≫= py_int); simpl; [|by eexists].
    destruct (getitem row "Abbreviation"); simpl; [|by eexists].
    destruct (getitem row "FullName"); simpl; [|by eexists].
    destruct (getitem row "TeamName"); simpl; [|by eexists].
    rewrite Hv. simpl. rewrite Hint. by eexists.
Qed.

(** C10.  When some row of the results table has a [Position] or a
    [DriverNumber] that [int] rejects, [update_session_data] returns
    normally and leaves the globals, hence every field of the snapshot
    and the timestamp, unchanged: the first list is never assigned. *)
Theorem conversion_failure_aborts_pass g session now results row v e :
  current_session g = Some session →
  Session.results session = Ok results →
  row ∈ iterrows results →
  getitem row "Position" = Ok v ∨ getitem row "DriverNumber" = Ok v →
  py_int v = Raise e →
  update_session_data now g = (Ok (), g).
Proof.
  intros Hc Hres Hrow Hcell Hint.
  destruct (driver_result_conversion row v e Hcell Hint) as [e' Hrec].
  destruct (mapM_raise driver_result _ row e' Hrow Hrec) as [e'' Hmap].
  rewrite (update_session_data_some session) by done.
  rewrite update_body_run. unfold extract_positions.
  rewrite Hres. simpl. by rewrite Hmap.
Qed.

(** ** C1: one guard around five extractions *)

(** C1, as the code has it.  The five extractions run in order inside
    one [try].  The call returns normally.  A category is updated from
    the session when neither its own extraction nor an earlier one
    raises; the two categories behind a [hasattr] test keep their value
    when the attribute is missing.  When some extraction raises, that
    category and every later one keep their previous value, and so does
    the timestamp. *)
Theorem pass_updates_in_order g session now :
  current_session g = Some session →
  let run := update_session_data now g in
  let d := session_data g in
  let d' := session_data run.2 in
  run.1 = Ok () ∧
  (∀ c, (∀ c', order c' ≤ order c → ¬ raises session c')%nat →
        (absent session c → kept c d d') ∧
        (¬ absent session c → updated session c d')) ∧
  (∀ c, (∃ c', order c' ≤ order c ∧ raises session c')%nat → kept c d d') ∧
  ((∃ c, raises session c) → last_update d' = last_update d).
Proof.
  intros Hc. destruct (pass_in_order g session now Hc)
    as (Hok & _ & _ & Hupd & Hkept & _ & Hstamp).
  done.
Qed.

(** ** C2: what a successful load leaves *)

Lemma extract_positions_length session p :
  extract_positions session = Ok p →
  ∃ results, Session.results session = Ok results ∧
             length p = length (rows results).
Proof.
  unfold extract_positions. intros (results & Hres & Hmap)%result_bind_ok.
  exists results. split; [done|].
  apply mapM_ok_length in Hmap. rewrite Hmap. unfold iterrows.
  by rewrite length_fmap.
Qed.

(** C2, as the code has it.  After a load that returns [True] and whose
    extraction pass met no failure, [last_update] is the clock reading
    and [positions] has one entry per row of the results table. *)
Theorem successful_load_fills_snapshot
    w year event_name session_type g g' session :
  load_session w year event_name session_type g = (Ok true, g') →
  current_session g' = Some session →
  (∀ c, ¬ raises session c) →
  last_update (session_data g') = Some (clock w) ∧
  ∃ results, Session.results session = Ok results ∧
             length (positions (session_data g')) = length (rows results).
Proof.
  rewrite load_session_run. intros Hrun Hcur Hpass.
  destruct (get_session w _ _ _) as [handle|]; [|done].
  destruct (load w handle) as [loaded_session|]; [|done].
  injection Hrun as <-.
  rewrite update_session_data_current in Hcur. simpl in Hcur.
  simplify_eq.
  set (g1 := assign (set_current_session session) g).
  destruct (pass_in_order g1 session (clock w) eq_refl)
    as (_ & _ & _ & Hupd & _ & Hstamp & _).
  split; [by apply Hstamp|].
  destruct (Hupd Positions) as [_ Hpos]; [intros c' _; apply Hpass|].
  apply extract_positions_length. apply Hpos. by intros [].
Qed.

(** ** C4: track-status labels and the green-flag filter *)

Lemma status_label_table code : status_label code = label_table code.
Proof.
  unfold status_label, status_names, label_table.
  repeat (case_decide; [by subst|]).
  rewrite !lookup_insert_ne by done. by rewrite lookup_empty.
Qed.

Lemma track_status_event_spec row event :
  ¬ status_is "1" row →
  track_status_event row = Ok event → track_event_of row event.
Proof.
  unfold track_status_event. intros Hcode Hev.
  apply result_bind_ok in Hev as (time & Htime & Hev).
  apply result_fmap_ok in Htime as (vt & Hvt & ->).
  apply result_bind_ok in Hev as (status & Hstatus & Hev).
  apply result_fmap_ok in Hstatus as (vs & Hvs & ->).
  apply result_bind_ok in Hev as (code & Hcode' & Hev).
  apply result_fmap_ok in Hcode' as (vs' & Hvs' & ->).
  injection Hev as <-. rewrite Hvs in Hvs'. injection Hvs' as <-. simpl.
  exists vt, vs. split_and!; try done.
  intros ->. apply Hcode. unfold status_is. by apply getitem_series_get.
Qed.

(** C4.  The label of a status code is the fixed table's entry for the
    six listed codes and "Unknown" for any other string, and the
    snapshot's track-status list has one entry per row of the log whose
    code is not the string "1", in the log's order: those rows whose
    code is "1" are left out. *)
Theorem track_status_labels_and_filter g session now table code :
  current_session g = Some session →
  Session.track_status session = Ok table →
  (∀ c, order c ≤ order TrackStatus → ¬ raises session c)%nat →
  status_label code = label_table code ∧
  (code ∉ ["1"; "2"; "4"; "5"; "6"; "7"] → status_label code = "Unknown") ∧
  Forall2 track_event_of
    (filter (λ row, ¬ status_is "1" row) (iterrows table))
    (track_status (session_data (update_session_data now g).2)).
Proof.
  intros Hc Htable Hpass. split; [apply status_label_table|]. split.
  { intros Hcode. rewrite status_label_table. unfold label_table.
    repeat (case_decide; [subst; exfalso; apply Hcode; set_solver|]). done. }
  destruct (pass_in_order g session now Hc) as (_ & _ & _ & Hupd & _).
  destruct (Hupd TrackStatus Hpass) as [_ Hnew].
  assert (Hpresent : ¬ absent session TrackStatus).
  { simpl. unfold extract_track_status. rewrite Htable. simpl.
    destruct (df_where table _ _); simpl; [|done].
    by destruct (mapM track_status_event _). }
  specialize (Hnew Hpresent). simpl in Hnew.
  unfold extract_track_status in Hnew. rewrite Htable in Hnew. simpl in Hnew.
  apply result_bind_ok in Hnew as (changes & Hwhere & Hnew).
  apply result_fmap_ok in Hnew as (events & Hmap & [= <-]).
  apply df_where_rows in Hwhere as [_ Hrows].
  apply mapM_ok_Forall2 in Hmap. rewrite Hrows in Hmap.
  rewrite (list_filter_iff _ (λ row, ¬ status_is "1" row)) in Hmap
    by (intros row; apply ne_str_spec).
  eapply Forall2_impl.
  - eapply Forall2_with_Forall; [apply Forall_filter_self|exact Hmap].
  - intros row event [Hcode Hev]. by apply track_status_event_spec.
Qed.

(** ** C8: pit stops *)

Lemma pit_stop_record_spec row stop :
  pit_stop_record row = Ok stop → pit_stop_of row stop.
Proof.
  unfold pit_stop_record, pit_stop_of. intros Hrec.
  apply result_bind_ok in Hrec as (driver & Hdriver & Hrec).
  apply result_bind_ok in Hrec as (team & Hteam & Hrec).
  apply result_bind_ok in Hrec as (number & Hnumber & Hrec).
  apply result_bind_ok in Hrec as (duration & Hduration & Hrec).
  injection Hrec as <-. simpl. split_and!; try done.
  - destruct (contains row "PitOutTime"); [|by injection Hduration as <-].
    apply result_bind_ok in Hduration as (out & _ & Hd).
    apply result_bind_ok in Hd as (inn & _ & Hd).
    apply result_bind_ok in Hd as (d & _ & Hd).
    injection Hd as <-. by split.
  - intros Hcol. rewrite Hcol in Hduration.
    apply result_bind_ok in Hduration as (out & Hout & Hd).
    apply result_bind_ok in Hd as (inn & Hinn & Hd).
    apply result_bind_ok in Hd as (d & Hsub & Hd).
    injection Hd as <-. by exists out, inn, d.
Qed.

Lemma pit_stop_record_duration row stop inn :
  pit_stop_record row = Ok stop →
  contains row "PitOutTime" = true →
  getitem row "PitInTime" = Ok (VTimedelta inn) →
  (∀ out, getitem row "PitOutTime" = Ok (VTimedelta out) →
          pit_duration stop = Some (timedelta_str (out - inn))) ∧
  (getitem row "PitOutTime" = Ok VNaT → pit_duration stop = Some "NaT").
Proof.
  intros Hrec Hcol Hin. apply pit_stop_record_spec in Hrec.
  destruct Hrec as (_ & _ & _ & _ & Hd).
  destruct (Hd Hcol) as (o & i & d & Ho & Hi & Hsub & ->).
  rewrite Hin in Hi. injection Hi as <-.
  split.
  - intros out Hout. rewrite Hout in Ho. injection Ho as <-.
    simpl in Hsub. by injection Hsub as <-.
  - intros Hout. rewrite Hout in Ho. injection Ho as <-.
    simpl in Hsub. by injection Hsub as <-.
Qed.


(** ** C5: the fastest laps and their endpoint *)

Lemma lap_record_time row lap :
  lap_record row = Ok lap →
  ∃ ns, series_get row "LapTime" VNaN = VTimedelta ns ∧
        lap_time_seconds lap = (ns # 1000000000)%Q.
Proof.
  unfold lap_record. intros Hrec.
  apply result_bind_ok in Hrec as (driver & _ & Hrec).
  apply result_bind_ok in Hrec as (team & _ & Hrec).
  apply result_bind_ok in Hrec as (number & _ & Hrec).
  apply result_bind_ok in Hrec as (time & _ & Hrec).
  apply result_bind_ok in Hrec as (secs & Hsecs & Hrec).
  apply result_bind_ok in Hsecs as (v & Hv & Hsecs).
  injection Hrec as <-. simpl.
  destruct v as [| | | | |ns|]; try done. injection Hsecs as <-.
  exists ns. split; [|done]. by apply getitem_series_get.
Qed.

Lemma extract_fastest_laps_derived session laps :
  extract_fastest_laps session = Ok laps →
  ∃ log, Session.laps session = Ok log ∧ fastest_of log laps.
Proof.
  unfold extract_fastest_laps. intros Hex.
  apply result_bind_ok in Hex as (log & Hlog & Hex).
  apply result_bind_ok in Hex as (with_time & Hwhere & Hex).
  apply result_bind_ok in Hex as (fastest & Hsort & Hmap).
  apply result_fmap_ok in Hsort as (sorted & Hsort & ->).
  exists log. split; [done|].
  destruct (sort_values_where _ _ _ _ Hwhere Hsort) as (Hcols & Hperm & Hsorted).
  exists (row_of log <$> rows sorted). split_and!.
  - unfold iterrows. rewrite filter_fmap. by apply fmap_Permutation.
  - by eapply Sorted_fmap; [|exact Hsorted].
  - apply mapM_ok_Forall2 in Hmap. unfold iterrows, head, row_of in *.
    simpl in Hmap. rewrite Hcols in Hmap. by rewrite <- fmap_take.
Qed.

Lemma fastest_of_bounds log laps :
  fastest_of log laps → (length laps ≤ 10)%nat ∧ Sorted seconds_le laps.
Proof.
  intros (ranked & _ & Hsorted & Hrec). split.
  - apply Forall2_length in Hrec. rewrite <- Hrec, length_take. lia.
  - eapply Sorted_Forall2; [|apply (Sorted_take _ 10), Hsorted|exact Hrec].
    intros r1 r2 lap1 lap2 Hlap1 Hlap2 Hle. simpl in *.
    apply lap_record_time in Hlap1 as (n1 & Hn1 & Hs1).
    apply lap_record_time in Hlap2 as (n2 & Hn2 & Hs2).
    unfold lap_time_le in Hle. rewrite Hn1, Hn2 in Hle. simpl in Hle.
    apply bool_decide_eq_true in Hle.
    unfold seconds_le. rewrite Hs1, Hs2. unfold Qle. simpl. lia.
Qed.

Lemma fastest_of_nothing : fastest_of {| columns := []; rows := [] |} [].
Proof. exists []. split_and!; constructor. Qed.

(** After a pass, each list is the old one or the session's. *)
Lemma pass_field g session now c :
  current_session g = Some session →
  let d' := session_data (update_session_data now g).2 in
  kept c (session_data g) d' ∨ updated session c d'.
Proof.
  intros Hc. simpl. rewrite (update_session_data_some session) by done.
  rewrite update_body_run. simpl.
  extractions session; destruct c; simpl; auto.
Qed.

Lemma reachable_fastest_of g :
  reachable g → ∃ log, fastest_of log (fastest_laps (session_data g)).
Proof.
  revert g. apply reachable_ind_update.
  - eexists. apply fastest_of_nothing.
  - intros now g [log Hlog].
    destruct (current_session g) as [session|] eqn:Hc.
    + destruct (pass_field g session now FastestLaps Hc) as [Hkept|Hnew];
        simpl in *.
      * rewrite Hkept. by exists log.
      * apply extract_fastest_laps_derived in Hnew as (log' & _ & Hnew).
        by exists log'.
    + rewrite update_session_data_none by done. by exists log.
  - done.
Qed.

Lemma extract_fastest_laps_ten session laps :
  extract_fastest_laps session = Ok laps →
  ∃ log, Session.laps session = Ok log ∧ fastest_ten_of log laps.
Proof.
  unfold extract_fastest_laps. intros Hex.
  apply result_bind_ok in Hex as (log & Hlog & Hex).
  apply result_bind_ok in Hex as (with_time & Hwhere & Hex).
  apply result_bind_ok in Hex as (fastest & Hsort & Hmap).
  apply result_fmap_ok in Hsort as (sorted & Hsort & ->).
  destruct (sort_values_where _ _ _ _ Hwhere Hsort) as (Hcols & Hperm & Hsorted).
  pose proof (sort_values_where_comparable _ _ _ _ Hwhere Hsort) as Hkinds.
  set (ranked := row_of log <$> rows sorted).
  assert (Hrec : Forall2 (λ row lap, lap_record row = Ok lap) (take 10 ranked) laps).
  { apply mapM_ok_Forall2 in Hmap. unfold iterrows, head, row_of in *.
    simpl in Hmap. rewrite Hcols in Hmap. unfold ranked.
    by rewrite <- fmap_take. }
  exists log. split; [done|]. exists ranked. split_and!; [| |exact Hrec].
  { unfold ranked, iterrows. rewrite filter_fmap. by apply fmap_Permutation. }
  destruct (ranked !! 0%nat) as [a|] eqn:Hfirst.
  2: { apply lookup_ge_None in Hfirst.
       rewrite (nil_length_inv ranked) by lia. constructor. }
  assert (Ha : a ∈ ranked) by (by eapply list_elem_of_lookup_2).
  assert (Hns : ∃ ns, series_get a "LapTime" VNaN = VTimedelta ns).
  { assert (Hi : take 10 ranked !! 0%nat = Some a)
      by (rewrite lookup_take_lt by lia; done).
    destruct (Forall2_lookup_l _ _ _ _ _ Hrec Hi) as (lap & _ & Hlap).
    apply lap_record_time in Hlap as (ns & Hns & _). by exists ns. }
  destruct Hns as [ns Hns].
  assert (Htimes : Forall (λ row, is_Some (lap_time_ns row)) ranked).
  { apply Forall_forall. intros r Hr.
    unfold ranked in Hr, Ha.
    apply list_elem_of_fmap in Hr as (vr & -> & Hvr).
    apply list_elem_of_fmap in Ha as (va & -> & Hva).
    rewrite Hperm in Hvr, Hva.
    assert (Hkind : kind_of (cell log "LapTime" vr)
                    = kind_of (cell log "LapTime" va)).
    { eapply comparable_kinds; [exact Hkinds| |];
        apply list_elem_of_fmap; eauto. }
    unfold cell in Hkind. rewrite Hns in Hkind. unfold lap_time_ns.
    by destruct (series_get (row_of log vr) "LapTime" VNaN). }
  apply Sorted_StronglySorted; [apply _|].
  eapply (Sorted_strengthen lap_time_le no_slower); [|exact Htimes|].
  - intros r1 r2 [x Hx] [y Hy] Hle. exists x, y. split_and!; [done|done|].
    unfold lap_time_le, lap_time_ns in *.
    destruct (series_get r1 "LapTime" VNaN); try done.
    destruct (series_get r2 "LapTime" VNaN); try done.
    simplify_eq. simpl in Hle. by apply bool_decide_eq_true in Hle.
  - unfold ranked. by eapply Sorted_fmap; [|exact Hsorted].
Qed.

(** C5, as the code has it.  In every state the server can reach:
    without a [limit], [/api/fastest-laps] returns the first five
    stored laps; with [limit=N], for an integer N ≥ 0 whose decimal
    numeral has no more digits than [int] converts (4300), it returns
    the first [min N (len fastest_laps)] stored laps, and for a longer
    numeral the first five, as without a [limit]; what it returns is in
    ascending order of [lap_time_seconds]; the stored list has at most
    ten entries; and each time a pass writes the list (no extraction up
    to the fastest laps raises) it is derived from the session's lap
    log by keeping the rows with a recorded lap time, ranking them by
    ascending lap time and taking the first ten. *)
Theorem fastest_laps_endpoint g args :
  reachable g →
  let laps := fastest_laps (session_data g) in
  let reply := dr_data (get_fastest_laps args g) in
  (args !! "limit" = None → reply = take 5 laps) ∧
  (∀ N, (0 ≤ N)%Z →
        args !! "limit" = Some (pretty N) →
        (String.length (pretty N) ≤ int_max_str_digits)%nat →
        reply = take (Z.to_nat N) laps ∧
        length reply = min (Z.to_nat N) (length laps)) ∧
  (∀ N, (0 ≤ N)%Z →
        args !! "limit" = Some (pretty N) →
        (int_max_str_digits < String.length (pretty N))%nat →
        reply = take 5 laps) ∧
  Sorted seconds_le reply ∧
  (length laps ≤ 10)%nat ∧
  (∀ session log now,
     current_session g = Some session →
     Session.laps session = Ok log →
     (∀ c, order c ≤ order FastestLaps → ¬ raises session c)%nat →
     fastest_ten_of log
       (fastest_laps (session_data (update_session_data now g).2))).
Proof.
  intros Hg laps reply.
  destruct (reachable_fastest_of g Hg) as [log Hlog].
  destruct (fastest_of_bounds log _ Hlog) as [Hlen Hsorted].
  split_and!.
  - intros Harg. unfold reply, get_fastest_laps, data_reply, args_get_int.
    cbn [dr_data]. rewrite Harg. by apply slice_to_nonneg.
  - intros N HN Harg Hdigits.
    assert (Hreply : reply = take (Z.to_nat N) laps).
    { unfold reply, get_fastest_laps, data_reply, args_get_int.
      cbn [dr_data]. rewrite Harg.
      rewrite int_of_string_pretty by (by rewrite Z.abs_eq).
      by apply slice_to_nonneg. }
    split; [done|]. by rewrite Hreply, length_take.
  - intros N HN Harg Hdigits.
    unfold reply, get_fastest_laps, data_reply, args_get_int.
    cbn [dr_data]. rewrite Harg.
    rewrite int_of_string_pretty_long by (by rewrite Z.abs_eq).
    by apply slice_to_nonneg.
  - unfold reply, get_fastest_laps, data_reply. cbn [dr_data].
    unfold slice_to. case_bool_decide; by apply Sorted_take.
  - done.
  - intros session log' now Hc Hlog' Hpass.
    destruct (pass_in_order g session now Hc) as (_ & _ & _ & Hupd & _).
    destruct (Hupd FastestLaps Hpass) as [_ Hnew].
    specialize (Hnew (λ Habs, Habs)). simpl in Hnew.
    apply extract_fastest_laps_ten in Hnew as (log'' & Hlog'' & Hten).
    rewrite Hlog' in Hlog''. by injection Hlog'' as <-.
Qed.

End claims.

(** * Further properties of the code *)

Section further.
Context `{Pandas}.

(** ** [update_session_data] as a whole *)

(** A pass never raises, never replaces the session handle and never
    writes [is_live]; without a session it changes nothing at all. *)
Theorem update_session_data_contained now g :
  (update_session_data now g).1 = Ok () ∧
  current_session (update_session_data now g).2 = current_session g ∧
  is_live (session_data (update_session_data now g).2) = is_live (session_data g) ∧
  (current_session g = None → (update_session_data now g).2 = g).
Proof.
  split_and!.
  - apply update_session_data_ok.
  - apply update_session_data_current.
  - apply update_session_data_is_live.
  - intros Hc. by rewrite update_session_data_none.
Qed.

(** Running the pass again on the same session adds nothing: two passes
    in a row leave what the second alone would have left. *)
Theorem update_session_data_twice now now' g :
  update_session_data now' (update_session_data now g).2
  = update_session_data now' g.
Proof.
  destruct (current_session g) as [session|] eqn:Hc.
  - assert (Hc' : current_session (update_session_data now g).2 = Some session)
      by (by rewrite update_session_data_current).
    rewrite (update_session_data_some session now' _ Hc').
    rewrite (update_session_data_some session now' g Hc).
    rewrite (update_session_data_some session now g Hc).
    rewrite !update_body_run.
    extractions session; simpl; done.
  - by rewrite (update_session_data_none now g Hc).
Qed.

(** When no extraction raises and both optional attributes exist, the
    pass overwrites all five lists and the timestamp: what two servers
    hold after a pass over the same session does not depend on what
    they held before. *)
Theorem full_pass_overwrites now g1 g2 session :
  current_session g1 = Some session →
  current_session g2 = Some session →
  (∀ c, ¬ raises session c) →
  (∀ c, ¬ absent session c) →
  let d1 := session_data (update_session_data now g1).2 in
  let d2 := session_data (update_session_data now g2).2 in
  same_lists d1 d2 ∧ last_update d1 = Some now ∧ last_update d2 = Some now.
Proof.
  intros Hc1 Hc2 Hpass Hpresent. simpl.
  rewrite (update_session_data_some session now g1 Hc1).
  rewrite (update_session_data_some session now g2 Hc2).
  rewrite !update_body_run.
  extractions session; simpl; try done.
  all: first [ pass_contra Hpass
             | exfalso; apply (Hpresent TrackStatus); by simpl
             | exfalso; apply (Hpresent RaceControl); by simpl ].
Qed.

(** ** The entries of a pass, row by row *)

Lemma driver_result_spec row r :
  driver_result row = Ok r → driver_of row r.
Proof.
  unfold driver_result, driver_of. intros Hrec.
  apply result_bind_ok in Hrec as (position & Hposition & Hrec).
  apply result_bind_ok in Hrec as (driver & Hdriver & Hrec).
  apply result_bind_ok in Hrec as (full_name & Hname & Hrec).
  apply result_bind_ok in Hrec as (team & Hteam & Hrec).
  apply result_bind_ok in Hrec as (number & Hnumber & Hrec).
  apply result_bind_ok in Hrec as (grid & Hgrid & Hrec).
  apply result_bind_ok in Hrec as (status & Hstatus & Hrec).
  injection Hrec as <-. simpl. split_and!; try done.
  - destruct (contains row "GridPosition"); [|by injection Hgrid as <-].
    apply result_fmap_ok in Hgrid as (z & _ & ->). by split.
  - intros Hcol. rewrite Hcol in Hgrid.
    apply result_fmap_ok in Hgrid as (z & Hz & ->). by exists z.
Qed.

Lemma message_record_spec row m :
  message_record row = Ok m → message_of row m.
Proof.
  unfold message_record, message_of. intros Hrec.
  apply result_bind_ok in Hrec as (time & Htime & Hrec).
  apply result_fmap_ok in Htime as (t & Ht & ->).
  apply result_bind_ok in Hrec as (message & Hmessage & Hrec).
  injection Hrec as <-. simpl. split_and!; [by exists t|done| |].
  - intros Hcol%series_lookup_contains. unfold series_get. by rewrite Hcol.
  - intros Hcol. unfold series_get, getitem.
    destruct (series_lookup row "Category") eqn:Hlook; [done|].
    apply series_lookup_contains in Hlook. congruence.
Qed.

(** The classification is copied row by row: when the first extraction
    does not raise, [positions] has one entry per row of the results
    table, in the table's order, with the row's position and car number
    as integers and a grid position exactly when the table has that
    column. *)
Theorem positions_row_by_row g session now results :
  current_session g = Some session →
  Session.results session = Ok results →
  ¬ raises session Positions →
  Forall2 driver_of (iterrows results)
    (positions (session_data (update_session_data now g).2)).
Proof.
  intros Hc Hres Hpass.
  destruct (pass_in_order g session now Hc) as (_ & _ & _ & Hupd & _).
  destruct (Hupd Positions) as [_ Hnew].
  { intros [] Hle; simpl in Hle; first [done|lia]. }
  specialize (Hnew (λ Habs, Habs)). simpl in Hnew.
  unfold extract_positions in Hnew. rewrite Hres in Hnew. simpl in Hnew.
  apply mapM_ok_Forall2 in Hnew.
  eapply Forall2_impl; [exact Hnew|]. intros row r. apply driver_result_spec.
Qed.

(** When the pass completes, [race_control_messages] has one entry per
    row of the log, in the log's order; the category is the row's, and
    "Other" when the log has no such column. *)
Theorem messages_row_by_row g session now log :
  current_session g = Some session →
  Session.race_control_messages session = Ok log →
  (∀ c, ¬ raises session c) →
  Forall2 message_of (iterrows log)
    (race_control_messages (session_data (update_session_data now g).2)).
Proof.
  intros Hc Hlog Hpass.
  destruct (pass_in_order g session now Hc) as (_ & _ & _ & Hupd & _).
  destruct (Hupd RaceControl) as [_ Hnew]; [by intros c _|].
  assert (Hpresent : ¬ absent session RaceControl).
  { simpl. unfold extract_race_control. rewrite Hlog. simpl.
    by destruct (mapM message_record _). }
  specialize (Hnew Hpresent). simpl in Hnew.
  unfold extract_race_control in Hnew. rewrite Hlog in Hnew. simpl in Hnew.
  apply result_fmap_ok in Hnew as (messages & Hmap & [= <-]).
  apply mapM_ok_Forall2 in Hmap.
  eapply Forall2_impl; [exact Hmap|]. intros row m. apply message_record_spec.
Qed.

(** ** Pit durations *)

Lemma pit_stops_after_pass g session now log :
  current_session g = Some session →
  Session.laps session = Ok log →
  (∀ c, order c ≤ order PitStops → ¬ raises session c)%nat →
  Forall2 (λ row stop, pit_stop_record row = Ok stop)
    (filter (recorded "PitInTime") (iterrows log))
    (pit_stops (session_data (update_session_data now g).2)).
Proof.
  intros Hc Hlog Hpass.
  destruct (pass_in_order g session now Hc) as (_ & _ & _ & Hupd & _).
  destruct (Hupd PitStops Hpass) as [_ Hnew].
  specialize (Hnew (λ Habs, Habs)). simpl in Hnew.
  unfold extract_pit_stops in Hnew. rewrite Hlog in Hnew. simpl in Hnew.
  apply result_bind_ok in Hnew as (stops & Hwhere & Hmap).
  apply df_where_rows in Hwhere as [_ Hrows].
  apply mapM_ok_Forall2 in Hmap. by rewrite Hrows in Hmap.
Qed.

(** On a lap row that has both pit times, the stored duration is the
    text of their difference; when the row's out-time is missing (NaT)
    although the column exists, the stored duration is the text "NaT",
    not null. *)
Theorem pit_duration_text g session now log :
  current_session g = Some session →
  Session.laps session = Ok log →
  (∀ c, order c ≤ order PitStops → ¬ raises session c)%nat →
  "PitOutTime" ∈ columns log →
  Forall2
    (λ row stop,
       ∀ inn, getitem row "PitInTime" = Ok (VTimedelta inn) →
         (∀ out, getitem row "PitOutTime" = Ok (VTimedelta out) →
                 pit_duration stop = Some (timedelta_str (out - inn))) ∧
         (getitem row "PitOutTime" = Ok VNaT →
          pit_duration stop = Some "NaT"))
    (filter (recorded "PitInTime") (iterrows log))
    (pit_stops (session_data (update_session_data now g).2)).
Proof.
  intros Hc Hlog Hpass Hcol.
  pose proof (pit_stops_after_pass g session now log Hc Hlog Hpass) as Hstops.
  eapply Forall2_impl.
  - eapply Forall2_with_Forall; [|exact Hstops].
    apply (Forall_impl (λ row, row ∈ iterrows log)).
    + apply Forall_forall. by intros row [_ ?]%list_elem_of_filter.
    + intros row Hrow. exact Hrow.
  - intros row stop [Hrow Hrec] inn Hin. simpl in *.
    apply (pit_stop_record_duration row stop inn Hrec); [|done].
    unfold iterrows in Hrow. apply list_elem_of_fmap in Hrow as (vals & -> & _).
    unfold contains. simpl. by apply bool_decide_eq_true.
Qed.

(** ** Track-status labels *)

Lemma extract_track_status_events session events :
  extract_track_status session = Ok (Some events) →
  ∃ table,
    Session.track_status session = Ok table ∧
    Forall2 (λ row event, ¬ status_is "1" row ∧ track_status_event row = Ok event)
      (filter (λ row, ¬ status_is "1" row) (iterrows table)) events.
Proof.
  unfold extract_track_status. intros Hex.
  apply result_bind_ok in Hex as (has & Hhas & Hex).
  destruct has; [|done].
  apply result_bind_ok in Hex as (table & Htable & Hex).
  apply result_bind_ok in Hex as (changes & Hwhere & Hex).
  apply result_fmap_ok in Hex as (events' & Hmap & [= <-]).
  exists table. split; [done|].
  apply df_where_rows in Hwhere as [_ Hrows].
  apply mapM_ok_Forall2 in Hmap. rewrite Hrows in Hmap.
  rewrite (list_filter_iff _ (λ row, ¬ status_is "1" row)) in Hmap
    by (intros row; apply ne_str_spec).
  eapply Forall2_with_Forall; [apply Forall_filter_self|exact Hmap].
Qed.

Lemma Forall2_Forall_r {A B} (P : A → B → Prop) (Q : B → Prop) l k :
  Forall2 P l k → (∀ x y, x ∈ l → P x y → Q y) → Forall Q k.
Proof.
  intros HP HQ. induction HP as [|x y l k Hxy _ IH]; constructor.
  - eapply HQ; [left|done].
  - apply IH. intros x' y' Hin. apply HQ. by right.
Qed.

(** In every state the server can reach, the label of each track-status
    entry is the table's label for the code stored beside it. *)
Theorem track_status_label_matches_code g :
  reachable g →
  Forall (λ event, ts_status event = status_label (ts_status_code event))
    (track_status (session_data g)).
Proof.
  revert g. apply reachable_ind_update.
  - constructor.
  - intros now g IH.
    destruct (current_session g) as [session|] eqn:Hc.
    + destruct (pass_field g session now TrackStatus Hc) as [Hkept|Hnew];
        simpl in *.
      * by rewrite Hkept.
      * apply extract_track_status_events in Hnew as (table & _ & Hev).
        eapply Forall2_Forall_r; [exact Hev|].
        intros row event _ [_ Hrec]. simpl in Hrec.
        apply result_bind_ok in Hrec as (time & _ & Hrec).
        apply result_bind_ok in Hrec as (status & Hstatus & Hrec).
        apply result_fmap_ok in Hstatus as (vs & Hvs & ->).
        apply result_bind_ok in Hrec as (code & Hcode & Hrec).
        apply result_fmap_ok in Hcode as (vs' & Hvs' & ->).
        injection Hrec as <-. simpl. congruence.
    + by rewrite update_session_data_none.
  - done.
Qed.

Lemma status_label_green code : status_label code = "Green Flag" → code = "1".
Proof.
  rewrite status_label_table. unfold label_table.
  repeat (case_decide; [by subst|]). done.
Qed.

(** When every code of the log is a string, as FastF1 delivers them, no
    stored entry has the code "1" or the label "Green Flag": the first
    line of [status_names] is never used. *)
Theorem no_green_flag_entry g session now table :
  current_session g = Some session →
  Session.track_status session = Ok table →
  (∀ c, order c ≤ order TrackStatus → ¬ raises session c)%nat →
  Forall (λ row, ∃ s, series_get row "Status" VNaN = VStr s) (iterrows table) →
  Forall (λ event, ts_status_code event ≠ "1" ∧ ts_status event ≠ "Green Flag")
    (track_status (session_data (update_session_data now g).2)).
Proof.
  intros Hc Htable Hpass Hstrings.
  destruct (pass_in_order g session now Hc) as (_ & _ & _ & Hupd & _).
  destruct (Hupd TrackStatus Hpass) as [_ Hnew].
  assert (Hpresent : ¬ absent session TrackStatus).
  { simpl. unfold extract_track_status. rewrite Htable. simpl.
    destruct (df_where table _ _); simpl; [|done].
    by destruct (mapM track_status_event _). }
  specialize (Hnew Hpresent). simpl in Hnew.
  apply extract_track_status_events in Hnew as (table' & Htable' & Hev).
  rewrite Htable in Htable'. injection Htable' as <-.
  eapply Forall2_Forall_r; [exact Hev|].
  intros row event Hin [Hcode Hrec]. simpl in *.
  apply list_elem_of_filter in Hin as [_ Hin].
  eapply Forall_forall in Hstrings as [s Hs]; [|exact Hin].
  apply (track_status_event_spec row event Hcode) in Hrec
    as (time & code & _ & Hget & Hne & _ & Hlabel & Hcode').
  apply (getitem_series_get _ _ _ VNaN) in Hget. rewrite Hs in Hget. subst code.
  simpl in *. rewrite Hlabel, Hcode'.
  assert (s ≠ "1") by congruence.
  split; [done|]. by intros ?%status_label_green.
Qed.

(** ** A lap log without its [LapTime] column *)

(** A lap log that lacks the [LapTime] column makes the pass stop with
    a KeyError at the fastest laps, also when the log has no rows: the
    fastest laps, the pit stops, the race-control messages and the
    timestamp keep their previous values. *)
Theorem missing_lap_time_column g session now log :
  current_session g = Some session →
  Session.laps session = Ok log →
  "LapTime" ∉ columns log →
  let d := session_data g in
  let d' := session_data (update_session_data now g).2 in
  extract_fastest_laps session = Raise (KeyError "LapTime") ∧
  fastest_laps d' = fastest_laps d ∧ pit_stops d' = pit_stops d ∧
  race_control_messages d' = race_control_messages d ∧
  last_update d' = last_update d.
Proof.
  intros Hc Hlog Hcol. simpl.
  assert (Hraise : extract_fastest_laps session = Raise (KeyError "LapTime")).
  { unfold extract_fastest_laps, df_where. rewrite Hlog. simpl.
    by rewrite bool_decide_eq_false_2. }
  destruct (pass_in_order g session now Hc) as (_ & _ & _ & _ & Hkept & _ & Hstamp).
  assert (Hfrom : ∀ c, (order FastestLaps ≤ order c)%nat →
            ∃ c', (order c' ≤ order c)%nat ∧ raises session c').
  { intros c Hle. exists FastestLaps. split; [done|]. simpl. by eexists. }
  split_and!; [done| | | |].
  - apply (Hkept FastestLaps), Hfrom. done.
  - apply (Hkept PitStops), Hfrom. simpl. lia.
  - apply (Hkept RaceControl), Hfrom. simpl. lia.
  - apply Hstamp. exists FastestLaps. simpl. by eexists.
Qed.

(** ** The [limit] parameter *)

Lemma race_control_after_pass g session now log :
  current_session g = Some session →
  Session.race_control_messages session = Ok log →
  (∀ c, ¬ raises session c) →
  Forall2 message_of (iterrows log)
    (race_control_messages (session_data (update_session_data now g).2)).
Proof.
  intros Hc Hlog Hpass.
  destruct (pass_in_order g session now Hc) as (_ & _ & _ & Hupd & _).
  destruct (Hupd RaceControl) as [_ Hnew]; [by intros c _|].
  assert (Hpresent : ¬ absent session RaceControl).
  { simpl. unfold extract_race_control. rewrite Hlog. simpl.
    by destruct (mapM message_record _). }
  specialize (Hnew Hpresent). simpl in Hnew.
  unfold extract_race_control in Hnew. rewrite Hlog in Hnew. simpl in Hnew.
  apply result_fmap_ok in Hnew as (messages & Hmap & [= <-]).
  apply mapM_ok_Forall2 in Hmap.
  eapply Forall2_impl; [exact Hmap|]. intros row m. apply message_record_spec.
Qed.

(** From the collaborator's log to the reply of [/api/race-control]:
    after a pass that meets no failure, the endpoint returns the
    entries built from the first rows of the session's race-control
    log, in the log's order: the first ten without a [limit], the
    first [min N (number of rows)] with [limit=N] for an integer N ≥ 0
    whose numeral has at most 4300 digits, and the first ten again for
    a longer numeral, which [int] refuses.  The reply has HTTP 200,
    [success: True] and the time of the pass. *)
Theorem race_control_endpoint g args session now log :
  current_session g = Some session →
  Session.race_control_messages session = Ok log →
  (∀ c, ¬ raises session c) →
  let reply := get_race_control args (update_session_data now g).2 in
  (args !! "limit" = None →
   Forall2 message_of (take 10 (iterrows log)) (dr_data reply)) ∧
  (∀ N, (0 ≤ N)%Z →
        args !! "limit" = Some (pretty N) →
        (String.length (pretty N) ≤ int_max_str_digits)%nat →
        Forall2 message_of (take (Z.to_nat N) (iterrows log)) (dr_data reply) ∧
        length (dr_data reply) = min (Z.to_nat N) (length (rows log))) ∧
  (∀ N, (0 ≤ N)%Z →
        args !! "limit" = Some (pretty N) →
        (int_max_str_digits < String.length (pretty N))%nat →
        Forall2 message_of (take 10 (iterrows log)) (dr_data reply)) ∧
  dr_code reply = 200 ∧ dr_success reply = true ∧
  dr_last_update reply = Some now.
Proof.
  intros Hc Hlog Hpass reply.
  pose proof (race_control_after_pass g session now log Hc Hlog Hpass) as Hrows.
  destruct (pass_in_order g session now Hc) as (_ & _ & _ & _ & _ & Hstamp & _).
  set (g' := (update_session_data now g).2) in *.
  assert (Hdefault : Forall2 message_of (take 10 (iterrows log))
            (slice_to 10 (race_control_messages (session_data g')))).
  { rewrite slice_to_nonneg by done. by apply Forall2_take. }
  split_and!.
  - intros Harg. unfold reply, get_race_control, data_reply, args_get_int.
    cbn [dr_data]. by rewrite Harg.
  - intros N HN Harg Hdigits.
    assert (Hreply : dr_data reply
              = take (Z.to_nat N) (race_control_messages (session_data g'))).
    { unfold reply, get_race_control, data_reply, args_get_int.
      cbn [dr_data]. rewrite Harg.
      rewrite int_of_string_pretty by (by rewrite Z.abs_eq).
      by apply slice_to_nonneg. }
    rewrite Hreply. split; [by apply Forall2_take|].
    rewrite length_take. apply Forall2_length in Hrows.
    rewrite <- Hrows. unfold iterrows. by rewrite length_fmap.
  - intros N HN Harg Hdigits.
    unfold reply, get_race_control, data_reply, args_get_int.
    cbn [dr_data]. rewrite Harg.
    by rewrite int_of_string_pretty_long by (by rewrite Z.abs_eq).
  - done.
  - done.
  - unfold reply, get_race_control, data_reply. cbn [dr_last_update].
    by apply Hstamp.
Qed.

(** A negative [limit] is not rejected.  With [limit=-k], for k ≥ 1
    with a numeral of at most 4300 digits, both routes return their
    list without its last [k] entries (nothing when there are at most
    [k]): the reply followed by the last [k] entries is the stored
    list.  With a longer numeral both fall back to their defaults. *)
Theorem negative_limit_drops_last g args k :
  args !! "limit" = Some (pretty (- Z.of_nat (S k))%Z) →
  let laps := fastest_laps (session_data g) in
  let messages := race_control_messages (session_data g) in
  let got_laps := dr_data (get_fastest_laps args g) in
  let got_messages := dr_data (get_race_control args g) in
  ((String.length (pretty (Z.of_nat (S k))) ≤ int_max_str_digits)%nat →
   got_laps = take (length laps - S k) laps ∧
   got_messages = take (length messages - S k) messages ∧
   length got_laps = (length laps - S k)%nat ∧
   length got_messages = (length messages - S k)%nat ∧
   ((S k ≤ length laps)%nat →
    (got_laps ++ drop (length laps - S k) laps)%list = laps) ∧
   ((S k ≤ length messages)%nat →
    (got_messages ++ drop (length messages - S k) messages)%list = messages)) ∧
  ((int_max_str_digits < String.length (pretty (Z.of_nat (S k))))%nat →
   got_laps = take 5 laps ∧ got_messages = take 10 messages).
Proof.
  intros Harg laps messages got_laps got_messages.
  assert (Habs : Z.abs (- Z.of_nat (S k)) = Z.of_nat (S k)) by lia.
  split.
  - intros Hdigits.
    assert (Hlaps : got_laps = take (length laps - S k) laps).
    { unfold got_laps, get_fastest_laps, data_reply, args_get_int.
      cbn [dr_data]. rewrite Harg.
      rewrite int_of_string_pretty by (by rewrite Habs).
      cbn [default from_option id]. rewrite slice_to_negative by lia.
      by replace (Z.to_nat (- - Z.of_nat (S k))) with (S k) by lia. }
    assert (Hmessages : got_messages = take (length messages - S k) messages).
    { unfold got_messages, get_race_control, data_reply, args_get_int.
      cbn [dr_data]. rewrite Harg.
      rewrite int_of_string_pretty by (by rewrite Habs).
      cbn [default from_option id]. rewrite slice_to_negative by lia.
      by replace (Z.to_nat (- - Z.of_nat (S k))) with (S k) by lia. }
    rewrite Hlaps, Hmessages.
    split_and!; [done|done| | | |].
    + rewrite length_take. lia.
    + rewrite length_take. lia.
    + intros _. apply take_drop.
    + intros _. apply take_drop.
  - intros Hdigits.
    unfold got_laps, got_messages, get_fastest_laps, get_race_control,
      data_reply, args_get_int.
    cbn [dr_data]. rewrite Harg.
    rewrite int_of_string_pretty_long by (by rewrite Habs).
    cbn [default from_option id].
    by rewrite !slice_to_nonneg by done.
Qed.

(** ** The ten fastest laps *)

(** The stored laps are the fastest: the rows of the lap log with a
    recorded lap time split into the rows the stored laps were built
    from, at most ten, and the rest; there is a rest only when ten were
    taken, and no row of the rest is faster than a row taken. *)
Theorem fastest_laps_are_the_fastest g session now log :
  current_session g = Some session →
  Session.laps session = Ok log →
  (∀ c, order c ≤ order FastestLaps → ¬ raises session c)%nat →
  ∃ chosen rest,
    chosen ++ rest ≡ₚ filter (recorded "LapTime") (iterrows log) ∧
    Forall2 (λ row lap, lap_record row = Ok lap) chosen
      (fastest_laps (session_data (update_session_data now g).2)) ∧
    (rest ≠ [] → length chosen = 10%nat) ∧
    ∀ a b, a ∈ chosen → b ∈ rest → no_slower a b.
Proof.
  intros Hc Hlog Hpass.
  destruct (pass_in_order g session now Hc) as (_ & _ & _ & Hupd & _).
  destruct (Hupd FastestLaps Hpass) as [_ Hnew].
  specialize (Hnew (λ Habs, Habs)). simpl in Hnew.
  set (laps := fastest_laps _) in *. clearbody laps.
  unfold extract_fastest_laps in Hnew. rewrite Hlog in Hnew. simpl in Hnew.
  apply result_bind_ok in Hnew as (with_time & Hwhere & Hex).
  apply result_bind_ok in Hex as (fastest & Hsort & Hmap).
  apply result_fmap_ok in Hsort as (sorted & Hsort & ->).
  destruct (sort_values_where _ _ _ _ Hwhere Hsort) as (Hcols & Hperm & Hsorted).
  pose proof (sort_values_where_comparable _ _ _ _ Hwhere Hsort) as Hkinds.
  set (ranked := row_of log <$> rows sorted).
  assert (Hrec : Forall2 (λ row lap, lap_record row = Ok lap) (take 10 ranked) laps).
  { apply mapM_ok_Forall2 in Hmap. unfold iterrows, head, row_of in *.
    simpl in Hmap. rewrite Hcols in Hmap. unfold ranked.
    by rewrite <- fmap_take. }
  exists (take 10 ranked), (drop 10 ranked). split_and!.
  - rewrite take_drop. unfold ranked, iterrows.
    rewrite filter_fmap. by apply fmap_Permutation.
  - exact Hrec.
  - intros Hrest. rewrite length_take.
    destruct (decide (length ranked ≤ 10)%nat) as [Hshort|]; [|lia].
    by rewrite drop_ge in Hrest.
  - intros a b Ha Hb.
    assert (Hns : ∃ ns, series_get a "LapTime" VNaN = VTimedelta ns).
    { apply list_elem_of_lookup in Ha as [i Hi].
      destruct (Forall2_lookup_l _ _ _ _ _ Hrec Hi) as (lap & _ & Hlap).
      apply lap_record_time in Hlap as (ns & Hns & _). by exists ns. }
    destruct Hns as [ns Hns].
    assert (Ha' : a ∈ ranked).
    { apply elem_of_take in Ha as (i & Hi & _).
      by eapply list_elem_of_lookup_2. }
    assert (Htimes : Forall (λ row, is_Some (lap_time_ns row)) ranked).
    { apply Forall_forall. intros r Hr.
      unfold ranked in Hr, Ha'.
      apply list_elem_of_fmap in Hr as (vr & -> & Hvr).
      apply list_elem_of_fmap in Ha' as (va & -> & Hva).
      rewrite Hperm in Hvr, Hva.
      assert (Hkind : kind_of (cell log "LapTime" vr)
                      = kind_of (cell log "LapTime" va)).
      { eapply comparable_kinds; [exact Hkinds| |];
          apply list_elem_of_fmap; eauto. }
      unfold cell in Hkind. rewrite Hns in Hkind. unfold lap_time_ns.
      by destruct (series_get (row_of log vr) "LapTime" VNaN). }
    assert (Hstrong : StronglySorted no_slower ranked).
    { apply Sorted_StronglySorted; [apply _|].
      eapply (Sorted_strengthen lap_time_le no_slower); [|exact Htimes|].
      - intros r1 r2 [x Hx] [y Hy] Hle. exists x, y. split_and!; [done|done|].
        unfold lap_time_le, lap_time_ns in *.
        destruct (series_get r1 "LapTime" VNaN); try done.
        destruct (series_get r2 "LapTime" VNaN); try done.
        simplify_eq. simpl in Hle. by apply bool_decide_eq_true in Hle.
      - unfold ranked. by eapply Sorted_fmap; [|exact Hsorted]. }
    rewrite <- (take_drop 10 ranked) in Hstrong.
    by eapply StronglySorted_app_1_elem_of.
Qed.

(** ** A session with empty tables *)

(** A session whose four tables have no rows (the track-status log and
    the lap log still with the columns the pass filters on) is
    extracted without failure: the pass empties all five lists,
    whatever they held, and sets the timestamp. *)
Theorem empty_tables_clear_snapshot g session now results table log messages :
  current_session g = Some session →
  Session.results session = Ok results ∧ rows results = [] →
  Session.track_status session = Ok table ∧ rows table = [] ∧
    "Status" ∈ columns table →
  Session.laps session = Ok log ∧ rows log = [] ∧
    "LapTime" ∈ columns log ∧ "PitInTime" ∈ columns log →
  Session.race_control_messages session = Ok messages ∧ rows messages = [] →
  session_data (update_session_data now g).2 =
    {| positions := []; track_status := []; fastest_laps := [];
       pit_stops := []; race_control_messages := [];
       last_update := Some now; is_live := is_live (session_data g) |}.
Proof.
  intros Hc [Hres Hres0] (Hts & Hts0 & Hstatus) (Hlaps & Hlaps0 & Htime & Hpit)
    [Hrc Hrc0].
  assert (Hpos : extract_positions session = Ok []).
  { unfold extract_positions, iterrows. rewrite Hres. simpl. by rewrite Hres0. }
  assert (Hev : extract_track_status session = Ok (Some [])).
  { unfold extract_track_status, df_where, iterrows. rewrite Hts. simpl.
    rewrite bool_decide_eq_true_2 by done. simpl. by rewrite Hts0. }
  assert (Hfl : extract_fastest_laps session = Ok []).
  { unfold extract_fastest_laps, df_where, sort_values, iterrows.
    rewrite Hlaps. simpl. rewrite bool_decide_eq_true_2 by done. simpl.
    rewrite bool_decide_eq_true_2 by done. by rewrite Hlaps0. }
  assert (Hps : extract_pit_stops session = Ok []).
  { unfold extract_pit_stops, df_where, iterrows. rewrite Hlaps. simpl.
    rewrite bool_decide_eq_true_2 by done. simpl. by rewrite Hlaps0. }
  assert (Hms : extract_race_control session = Ok (Some [])).
  { unfold extract_race_control, iterrows. rewrite Hrc. simpl. by rewrite Hrc0. }
  rewrite (update_session_data_some session) by done.
  rewrite update_body_run, Hpos, Hev, Hfl, Hps, Hms. done.
Qed.

(** ** What the [hasattr] tests let through *)

(** The [hasattr] test in front of the track status only covers a
    missing attribute.  When reading [track_status] raises
    AttributeError the block is skipped; when it raises anything else,
    as FastF1 does for data that was not loaded, the exception leaves
    [hasattr] and ends the pass: the track status and everything after
    it keep their values. *)
Theorem track_status_attribute_raises g session now e :
  current_session g = Some session →
  Session.track_status session = Raise e →
  let d := session_data g in
  let d' := session_data (update_session_data now g).2 in
  (e = AttributeError → absent session TrackStatus ∧ kept TrackStatus d d') ∧
  (e ≠ AttributeError →
   extract_track_status session = Raise e ∧
   kept TrackStatus d d' ∧ kept FastestLaps d d' ∧ kept PitStops d d' ∧
   kept RaceControl d d' ∧ last_update d' = last_update d).
Proof.
  intros Hc Hattr. simpl.
  destruct (pass_in_order g session now Hc)
    as (_ & _ & _ & Hupd & Hkept & _ & Hstamp).
  split.
  - intros ->.
    assert (Habs : extract_track_status session = Ok None).
    { unfold extract_track_status. by rewrite Hattr. }
    split; [done|].
    destruct (pass_field g session now TrackStatus Hc) as [Hk|Hnew]; [done|].
    simpl in Hnew. congruence.
  - intros Hne.
    assert (Hraise : extract_track_status session = Raise e).
    { unfold extract_track_status. rewrite Hattr. by destruct e. }
    assert (Hfrom : ∀ c, (order TrackStatus ≤ order c)%nat →
              ∃ c', (order c' ≤ order c)%nat ∧ raises session c').
    { intros c Hle. exists TrackStatus. split; [done|]. simpl. by eexists. }
    split_and!; [done| | | | |].
    + apply (Hkept TrackStatus), Hfrom. done.
    + apply (Hkept FastestLaps), Hfrom. simpl. lia.
    + apply (Hkept PitStops), Hfrom. simpl. lia.
    + apply (Hkept RaceControl), Hfrom. simpl. lia.
    + apply Hstamp. exists TrackStatus. simpl. by eexists.
Qed.

(** When reading [race_control_messages] raises something other than
    AttributeError and the four blocks before it went through, the pass
    ends after having replaced the four other lists: they hold the new
    session's data while the messages and the timestamp are the old
    ones. *)
Theorem race_control_attribute_raises g session now e :
  current_session g = Some session →
  Session.race_control_messages session = Raise e →
  e ≠ AttributeError →
  (∀ c, order c ≤ order PitStops → ¬ raises session c)%nat →
  let d := session_data g in
  let d' := session_data (update_session_data now g).2 in
  updated session Positions d' ∧ updated session FastestLaps d' ∧
  updated session PitStops d' ∧
  kept RaceControl d d' ∧ last_update d' = last_update d.
Proof.
  intros Hc Hattr Hne Hpass. simpl.
  destruct (pass_in_order g session now Hc)
    as (_ & _ & _ & Hupd & Hkept & _ & Hstamp).
  assert (Hraise : raises session RaceControl).
  { simpl. exists e. unfold extract_race_control. rewrite Hattr. by destruct e. }
  split_and!.
  - apply (Hupd Positions); [|by intros []].
    intros c Hle. apply Hpass. simpl in *. lia.
  - apply (Hupd FastestLaps); [|by intros []].
    intros c Hle. apply Hpass. simpl in *. lia.
  - apply (Hupd PitStops); [|by intros []]. exact Hpass.
  - apply (Hkept RaceControl). by exists RaceControl.
  - apply Hstamp. by exists RaceControl.
Qed.

(** ** [load_session] *)

(** [load_session] always returns normally.  It returns [True] exactly
    when the collaborator delivers a session, which is then the current
    one whatever the extraction pass met; it returns [False] exactly
    when the collaborator fails, and then nothing has changed. *)
Theorem load_session_outcome w year event_name session_type g :
  let run := load_session w year event_name session_type g in
  (run.1 = Ok true ∧
   ∃ session, delivers w year event_name session_type session ∧
              current_session run.2 = Some session) ∨
  (run.1 = Ok false ∧ fails w year event_name session_type ∧ run.2 = g).
Proof.
  simpl. rewrite load_session_run. unfold delivers, fails.
  destruct (get_session w _ _ _) as [handle|e] eqn:Hget.
  - destruct (load w handle) as [session|e] eqn:Hload.
    + left. split; [done|]. exists session. split; [by exists handle|].
      simpl. by rewrite update_session_data_current.
    + right. split_and!; [done| |done]. right. by exists handle, e.
  - right. split_and!; [done| |done]. left. by exists e.
Qed.

(** ** [load_session_endpoint] *)

Lemma load_session_endpoint_run w data g :
  load_session_endpoint w (Ok data) g =
    let run := load_session w (body_year data) (body_event data)
                 (body_session_type data) g in
    match run.1 with
    | Ok true =>
        (Ok {| mr_code := 200; mr_success := true;
               mr_message := "Session loaded: " +:+ py_str (body_year data)
                             +:+ " " +:+ py_str (body_event data)
                             +:+ " " +:+ py_str (body_session_type data);
               mr_extra := Some (session_data run.2) |}, run.2)
    | Ok false =>
        (Ok {| mr_code := 500; mr_success := false;
               mr_message := "Failed to load session"; mr_extra := None |},
         run.2)
    | Raise e => (Raise e, run.2)
    end.
Proof.
  unfold load_session_endpoint, mbind, M_bind, lift, body_year, body_event,
    body_session_type. simpl.
  by destruct (load_session w _ _ _ g) as [[[]|] g'].
Qed.

(** When the collaborator fails for the arguments of the body, the
    endpoint answers HTTP 500 with [success: False] and changes
    nothing. *)
Theorem load_endpoint_failure w data g :
  fails w (body_year data) (body_event data) (body_session_type data) →
  load_session_endpoint w (Ok data) g =
    (Ok {| mr_code := 500; mr_success := false;
           mr_message := "Failed to load session"; mr_extra := None |}, g).
Proof.
  intros Hfail. rewrite load_session_endpoint_run, load_session_run.
  by destruct Hfail as [[e ->]|(handle & e & -> & ->)].
Qed.

(** When the collaborator delivers a session, the endpoint answers HTTP
    200 with [success: True] and, as [data], the snapshot as the load
    left it; the delivered session is the current one. *)
Theorem load_endpoint_success w data g session :
  delivers w (body_year data) (body_event data) (body_session_type data)
    session →
  ∃ message g',
    load_session_endpoint w (Ok data) g =
      (Ok {| mr_code := 200; mr_success := true; mr_message := message;
             mr_extra := Some (session_data g') |}, g') ∧
    current_session g' = Some session ∧
    g' = (update_session_data (clock w)
            (assign (set_current_session session) g)).2.
Proof.
  intros (handle & Hget & Hload). rewrite load_session_endpoint_run.
  rewrite load_session_run, Hget, Hload. simpl.
  eexists _, _. split_and!; [reflexivity| |reflexivity].
  by rewrite update_session_data_current.
Qed.

(** Each key that the body lacks takes its default: for every body,
    the endpoint does with it what it does with the same body and
    [year: 2024], [event: "Abu Dhabi"] or [session_type: "R"] written
    in for the key that is missing.  A body without the three keys,
    whatever else it holds, loads the default session and leaves the
    globals as the load at start-up does. *)
Theorem load_endpoint_defaults w data g :
  let endpoint body := load_session_endpoint w (Ok body) g in
  (data !! "year" = None →
   endpoint data = endpoint (<["year" := VInt 2024]> data)) ∧
  (data !! "event" = None →
   endpoint data = endpoint (<["event" := VStr "Abu Dhabi"]> data)) ∧
  (data !! "session_type" = None →
   endpoint data = endpoint (<["session_type" := VStr "R"]> data)) ∧
  (data !! "year" = None → data !! "event" = None →
   data !! "session_type" = None →
   endpoint data =
     endpoint (<["year" := VInt 2024]> (<["event" := VStr "Abu Dhabi"]>
                (<["session_type" := VStr "R"]> data))) ∧
   (endpoint data).2 =
     (load_session w (VInt 2024) (VStr "Abu Dhabi") (VStr "R") g).2).
Proof.
  intros endpoint. unfold endpoint. split_and!.
  - intros Hyear. rewrite !load_session_endpoint_run.
    unfold body_year, body_event, body_session_type.
    by rewrite lookup_insert_eq, !lookup_insert_ne, Hyear by done.
  - intros Hevent. rewrite !load_session_endpoint_run.
    unfold body_year, body_event, body_session_type.
    by rewrite lookup_insert_eq, !lookup_insert_ne, Hevent by done.
  - intros Htype. rewrite !load_session_endpoint_run.
    unfold body_year, body_event, body_session_type.
    by rewrite lookup_insert_eq, !lookup_insert_ne, Htype by done.
  - intros Hyear Hevent Htype. rewrite !load_session_endpoint_run.
    unfold body_year, body_event, body_session_type.
    rewrite lookup_insert_eq.
    rewrite lookup_insert_ne, lookup_insert_eq by done.
    rewrite !lookup_insert_ne, lookup_insert_eq by done.
    rewrite Hyear, Hevent, Htype. simpl.
    split; [done|].
    by destruct (load_session w _ _ _ g) as [[[]|] g'].
Qed.

(** ** [refresh_data] *)

(** With a session loaded, a refresh runs the pass and answers HTTP 200
    with [success: True] and the snapshot's timestamp, also when the
    pass met a failure and the timestamp is the old one. *)
Theorem refresh_with_session now g session :
  current_session g = Some session →
  let g' := (update_session_data now g).2 in
  refresh_data now g =
    (Ok {| mr_code := 200; mr_success := true; mr_message := "Data refreshed";
           mr_extra := Some (last_update (session_data g')) |}, g') ∧
  current_session g' = Some session.
Proof.
  intros Hc. simpl. split; [|by rewrite update_session_data_current].
  unfold refresh_data, mbind, M_bind, get_current_session. simpl. rewrite Hc.
  pose proof (update_session_data_ok now g) as Hok.
  by destruct (update_session_data now g) as [[[]|] g'].
Qed.

(** ** The session handle over time *)

(** Once a session is loaded, no operation unloads it: after a load, a
    POST to either route or a refresh there is still a current session,
    and [/api/status] keeps reporting [session_loaded]. *)
Theorem session_never_unloaded g :
  current_session g ≠ None →
  (∀ w year event_name session_type,
     current_session (load_session w year event_name session_type g).2 ≠ None) ∧
  (∀ w body, current_session (load_session_endpoint w body g).2 ≠ None) ∧
  (∀ now, current_session (refresh_data now g).2 ≠ None) ∧
  st_session_loaded (get_status g) = true.
Proof.
  intros Hc.
  assert (Hload : ∀ w y e s, current_session (load_session w y e s g).2 ≠ None).
  { intros w y e s.
    destruct (load_session_outcome w y e s g)
      as [(_ & session & _ & ->)|(_ & _ & ->)]; done. }
  split_and!.
  - exact Hload.
  - intros w body.
    destruct (load_session_endpoint_state w body g) as [->|(y & e & s & ->)];
      [done|apply Hload].
  - intros now. by rewrite refresh_data_state, update_session_data_current.
  - unfold get_status. simpl. by apply bool_decide_eq_true.
Qed.

(** Until a session has been loaded the snapshot is the initial one:
    every list is empty and there is no timestamp. *)
Theorem snapshot_initial_until_loaded g :
  reachable g → current_session g = None →
  session_data g = session_data initial_globals.
Proof.
  revert g.
  apply (reachable_ind_update
           (λ g, current_session g = None →
                 session_data g = session_data initial_globals)).
  - done.
  - intros now g IH Hc. rewrite update_session_data_current in Hc.
    rewrite update_session_data_none by done. by apply IH.
  - done.
Qed.

End further.

(** * Worked examples *)

#[local] Existing Instance sample_pandas.

Lemma ex_session_passes c : ¬ raises ex_session c.
Proof. destruct c; intros [e He]; vm_compute in He; discriminate He. Defined.

Lemma ex_started_reachable : reachable ex_started.
Proof. apply reach_main, reach_import. Defined.

(** A pass over [ex_session], field by field. *)
Example pass_on_ex_session :
  let d := session_data
             (update_session_data "2024-12-08T17:05:00" (loaded ex_session)).2 in
  pos_driver <$> positions d = [VStr "NOR"; VStr "SAI"; VStr "LEC"] ∧
  (λ e, (ts_status_code e, ts_status e)) <$> track_status d
  = [("2", "Yellow Flag"); ("4", "Safety Car"); ("3", "Unknown")] ∧
  lap_time <$> fastest_laps d
  = ["0 days 00:01:27"; "0 days 00:01:28"; "0 days 00:01:32"; "0 days 00:01:35"] ∧
  pit_duration <$> pit_stops d = [Some "0 days 00:00:22"; Some "NaT"] ∧
  length (race_control_messages d) = 2%nat ∧
  last_update d = Some "2024-12-08T17:05:00".
Proof. by vm_compute. Qed.

(** Without the out-time column the duration is [None]. *)
Example pass_on_ex_session_no_out :
  pit_duration <$> pit_stops (session_data
    (update_session_data "2024-12-08T17:05:00" (loaded ex_session_no_out)).2)
  = [None].
Proof. by vm_compute. Qed.

(** ** C1 *)

(** With the lap log not loaded, the fastest laps keep their value, but
    so do the race-control messages, although the session has two. *)
Lemma independent_guard_fails :
  ¬ independently_guarded (loaded ex_session_no_laps) ex_session_no_laps
      "2024-12-08T17:05:00" FastestLaps.
Proof.
  intros Hclaim.
  destruct (Hclaim eq_refl) as [_ Hothers].
  { left. eexists. reflexivity. }
  assert (Hrc : updated ex_session_no_laps RaceControl
            (session_data (update_session_data "2024-12-08T17:05:00"
                             (loaded ex_session_no_laps)).2)).
  { apply Hothers; [done| |].
    - intros [e He]. vm_compute in He. discriminate He.
    - intros Habs. vm_compute in Habs. discriminate Habs. }
  vm_compute in Hrc. discriminate Hrc.
Qed.

Lemma pass_updates_in_order_witness :
  current_session (loaded ex_session_no_laps) = Some ex_session_no_laps ∧
  let d' := session_data (update_session_data "2024-12-08T17:05:00"
                            (loaded ex_session_no_laps)).2 in
  updated ex_session_no_laps Positions d' ∧
  updated ex_session_no_laps TrackStatus d' ∧
  kept FastestLaps (session_data (loaded ex_session_no_laps)) d' ∧
  kept RaceControl (session_data (loaded ex_session_no_laps)) d' ∧
  last_update d' = None.
Proof.
  split; [reflexivity|].
  destruct (pass_updates_in_order (loaded ex_session_no_laps)
              ex_session_no_laps "2024-12-08T17:05:00" eq_refl)
    as (_ & Hupd & Hkept & Hstamp).
  assert (Hlaps : raises ex_session_no_laps FastestLaps)
    by (eexists; reflexivity).
  assert (Hfirst : ∀ c, (order c ≤ 1)%nat → ¬ raises ex_session_no_laps c).
  { intros [] Hle [e He]; simpl in Hle; try lia;
      vm_compute in He; discriminate He. }
  split_and!.
  - apply (Hupd Positions); [|by intros []].
    intros c Hle. apply Hfirst. simpl in Hle. lia.
  - apply (Hupd TrackStatus); [exact Hfirst|].
    intros Habs. vm_compute in Habs. discriminate Habs.
  - apply Hkept. exists FastestLaps. split; [simpl; lia|exact Hlaps].
  - apply Hkept. exists FastestLaps. split; [simpl; lia|exact Hlaps].
  - rewrite Hstamp; [reflexivity|]. by exists FastestLaps.
Defined.

(** ** C2 *)

(** The load returns [True], yet the timestamp stays empty and no
    position is stored for a table of two rows. *)
Lemma successful_load_without_snapshot :
  ¬ load_fills_snapshot (world_with ex_session_nan)
      (VInt 2024) (VStr "Abu Dhabi") (VStr "R") initial_globals.
Proof.
  intros Hclaim.
  destruct (Hclaim ex_started_nan) as [Hstamp _]; [by vm_compute|].
  by apply Hstamp.
Qed.

Lemma successful_load_fills_snapshot_witness :
  load_session (world_with ex_session)
    (VInt 2024) (VStr "Abu Dhabi") (VStr "R") initial_globals
  = (Ok true, ex_started) ∧
  current_session ex_started = Some ex_session ∧
  (∀ c, ¬ raises ex_session c) ∧
  last_update (session_data ex_started) = Some "2024-12-08T17:00:00.000000" ∧
  ∃ results, Session.results ex_session = Ok results ∧
             length (positions (session_data ex_started)) = length (rows results).
Proof.
  assert (Hrun : load_session (world_with ex_session)
            (VInt 2024) (VStr "Abu Dhabi") (VStr "R") initial_globals
          = (Ok true, ex_started)) by (vm_compute; reflexivity).
  assert (Hcur : current_session ex_started = Some ex_session)
    by (vm_compute; reflexivity).
  split_and!; [exact Hrun|exact Hcur|exact ex_session_passes| |];
    apply (successful_load_fills_snapshot _ _ _ _ _ _ _ Hrun Hcur
             ex_session_passes).
Defined.

(** ** C3 *)

Lemma load_failure_leaves_state_witness :
  (∃ e, get_session world_unknown_event (VInt 2024) (VStr "Atlantis") (VStr "R")
        = Raise e) ∧
  (∃ handle e,
     get_session world_load_fails (VInt 2024) (VStr "Abu Dhabi") (VStr "R")
     = Ok handle ∧ load world_load_fails handle = Raise e) ∧
  load_session world_unknown_event (VInt 2024) (VStr "Atlantis") (VStr "R")
    ex_started = (Ok false, ex_started) ∧
  load_session world_load_fails (VInt 2024) (VStr "Abu Dhabi") (VStr "R")
    ex_started = (Ok false, ex_started).
Proof.
  assert (Hget : ∃ e, get_session world_unknown_event
                        (VInt 2024) (VStr "Atlantis") (VStr "R") = Raise e)
    by (eexists; reflexivity).
  assert (Hload : ∃ handle e,
            get_session world_load_fails (VInt 2024) (VStr "Abu Dhabi") (VStr "R")
            = Ok handle ∧ load world_load_fails handle = Raise e)
    by (eexists _, _; split; reflexivity).
  split_and!; [exact Hget|exact Hload| |].
  - apply load_failure_leaves_state. left. exact Hget.
  - apply load_failure_leaves_state. right. exact Hload.
Defined.

(** ** C4 *)

Lemma track_status_labels_and_filter_witness :
  current_session (loaded ex_session) = Some ex_session ∧
  Session.track_status ex_session = Ok ex_track_status ∧
  ("3" ∉ ["1"; "2"; "4"; "5"; "6"; "7"]) ∧
  status_label "3" = "Unknown" ∧
  Forall2 track_event_of
    (filter (λ row, ¬ status_is "1" row) (iterrows ex_track_status))
    (track_status (session_data
       (update_session_data "2024-12-08T17:05:00" (loaded ex_session)).2)).
Proof.
  assert (Hcode : "3" ∉ ["1"; "2"; "4"; "5"; "6"; "7"]).
  { intros Hin. repeat (apply elem_of_cons in Hin as [Heq|Hin];
                        [discriminate Heq|]).
    by apply elem_of_nil in Hin. }
  destruct (track_status_labels_and_filter (loaded ex_session) ex_session
              "2024-12-08T17:05:00" ex_track_status "3" eq_refl eq_refl)
    as (_ & Hunknown & Hevents).
  { intros c _. apply ex_session_passes. }
  split_and!; [reflexivity|reflexivity|exact Hcode|by apply Hunknown|exact Hevents].
Defined.

(** ** C5 *)

(** A negative [limit] cuts from the end: of four laps, [limit=-1]
    returns three. *)
Lemma negative_limit_is_not_min :
  reachable ex_started ∧
  ¬ limit_gives_min {[ "limit" := "-1" ]} ex_started.
Proof.
  split; [exact ex_started_reachable|].
  unfold limit_gives_min. vm_compute. discriminate.
Qed.

Lemma fastest_laps_endpoint_witness :
  reachable ex_started ∧
  dr_data (get_fastest_laps {[ "limit" := "2" ]} ex_started)
  = take 2 (fastest_laps (session_data ex_started)) ∧
  length (dr_data (get_fastest_laps {[ "limit" := "2" ]} ex_started)) = 2%nat ∧
  Sorted seconds_le (dr_data (get_fastest_laps {[ "limit" := "2" ]} ex_started)) ∧
  (length (fastest_laps (session_data ex_started)) ≤ 10)%nat ∧
  fastest_ten_of ex_laps
    (fastest_laps (session_data
       (update_session_data "2024-12-08T17:05:00" ex_started).2)).
Proof.
  destruct (fastest_laps_endpoint ex_started {[ "limit" := "2" ]}
              ex_started_reachable)
    as (_ & Hlimit & _ & Hsorted & Hten & Hderived).
  destruct (Hlimit 2%Z) as [Hreply Hlen];
    [lia|reflexivity|vm_compute; lia|].
  split_and!; [exact ex_started_reachable|exact Hreply|exact Hlen
              |exact Hsorted|exact Hten|].
  apply (Hderived ex_session ex_laps); [reflexivity|reflexivity|].
  intros c _. apply ex_session_passes.
Defined.

(** ** C6 *)

Lemma refresh_without_session_witness :
  current_session initial_globals = None ∧
  refresh_data "2024-12-08T17:05:00" initial_globals =
    (Ok {| mr_code := 400; mr_success := false;
           mr_message := "No session loaded"; mr_extra := None |},
     initial_globals).
Proof.
  split; [reflexivity|]. by apply refresh_without_session.
Defined.

(** ** C8 *)




(** ** C9 *)

Lemma is_live_always_false_witness :
  reachable ex_started ∧
  is_live (session_data ex_started) = false ∧
  st_is_live (get_status ex_started) = false.
Proof.
  split; [exact ex_started_reachable|].
  apply is_live_always_false, ex_started_reachable.
Defined.

(** ** C10 *)

Lemma conversion_failure_aborts_pass_witness :
  current_session ex_started = Some ex_session ∧
  Session.results ex_session_nan = Ok ex_results_nan ∧
  row_of ex_results_nan
    [VNaN; VStr "SAI"; VStr "Carlos Sainz"; VStr "Ferrari";
     VStr "55"; VFloat 3; VStr "Finished"] ∈ iterrows ex_results_nan ∧
  py_int VNaN = Raise ValueError ∧
  let g := {| current_session := Some ex_session_nan;
              session_data := session_data ex_started |} in
  update_session_data "2024-12-08T17:05:00" g = (Ok (), g).
Proof.
  assert (Hrow : row_of ex_results_nan
            [VNaN; VStr "SAI"; VStr "Carlos Sainz"; VStr "Ferrari";
             VStr "55"; VFloat 3; VStr "Finished"] ∈ iterrows ex_results_nan).
  { unfold iterrows. simpl. right. left. }
  split_and!; [by vm_compute|reflexivity|exact Hrow|reflexivity|].
  intros g.
  apply (conversion_failure_aborts_pass g ex_session_nan _ ex_results_nan
           _ VNaN ValueError eq_refl eq_refl Hrow); [|reflexivity].
  left. reflexivity.
Defined.

(** ** The further properties on the example sessions *)

Lemma ex_session_many_passes c : ¬ raises ex_session_many c.
Proof. destruct c; intros [e He]; vm_compute in He; discriminate He. Defined.

Lemma ex_session_plain_passes c : ¬ raises ex_session_plain c.
Proof. destruct c; intros [e He]; vm_compute in He; discriminate He. Defined.

Lemma ex_session_present c : ¬ absent ex_session c.
Proof. destruct c; intros Habs; vm_compute in Habs; done. Defined.

Lemma full_pass_overwrites_witness :
  current_session (loaded ex_session) = Some ex_session ∧
  current_session ex_stale = Some ex_session ∧
  (∀ c, ¬ raises ex_session c) ∧ (∀ c, ¬ absent ex_session c) ∧
  same_lists
    (session_data (update_session_data "2024-12-08T17:05:00" (loaded ex_session)).2)
    (session_data (update_session_data "2024-12-08T17:05:00" ex_stale).2).
Proof.
  split_and!; [reflexivity|reflexivity|exact ex_session_passes
              |exact ex_session_present|].
  apply (full_pass_overwrites "2024-12-08T17:05:00" (loaded ex_session) ex_stale
           ex_session eq_refl eq_refl ex_session_passes ex_session_present).
Defined.

Lemma positions_row_by_row_witness :
  current_session (loaded ex_session) = Some ex_session ∧
  Session.results ex_session = Ok ex_results ∧
  ¬ raises ex_session Positions ∧
  Forall2 driver_of (iterrows ex_results)
    (positions (session_data
       (update_session_data "2024-12-08T17:05:00" (loaded ex_session)).2)).
Proof.
  split_and!; [reflexivity|reflexivity|apply ex_session_passes|].
  apply (positions_row_by_row (loaded ex_session) ex_session _ ex_results
           eq_refl eq_refl (ex_session_passes Positions)).
Defined.

Lemma messages_row_by_row_witness :
  current_session (loaded ex_session_plain) = Some ex_session_plain ∧
  Session.race_control_messages ex_session_plain = Ok ex_messages_plain ∧
  (∀ c, ¬ raises ex_session_plain c) ∧
  Forall2 message_of (iterrows ex_messages_plain)
    (race_control_messages (session_data
       (update_session_data "2024-12-08T17:05:00" (loaded ex_session_plain)).2)).
Proof.
  split_and!; [reflexivity|reflexivity|exact ex_session_plain_passes|].
  apply (messages_row_by_row (loaded ex_session_plain) ex_session_plain _
           ex_messages_plain eq_refl eq_refl ex_session_plain_passes).
Defined.

Lemma pit_duration_text_witness :
  current_session (loaded ex_session) = Some ex_session ∧
  Session.laps ex_session = Ok ex_laps ∧
  "PitOutTime" ∈ columns ex_laps ∧
  Forall2
    (λ row stop,
       ∀ inn, getitem row "PitInTime" = Ok (VTimedelta inn) →
         (∀ out, getitem row "PitOutTime" = Ok (VTimedelta out) →
                 pit_duration stop = Some (timedelta_str (out - inn))) ∧
         (getitem row "PitOutTime" = Ok VNaT →
          pit_duration stop = Some "NaT"))
    (filter (recorded "PitInTime") (iterrows ex_laps))
    (pit_stops (session_data
       (update_session_data "2024-12-08T17:05:00" (loaded ex_session)).2)).
Proof.
  assert (Hcol : "PitOutTime" ∈ columns ex_laps).
  { simpl. do 5 right. left. }
  split_and!; [reflexivity|reflexivity|exact Hcol|].
  apply (pit_duration_text (loaded ex_session) ex_session _ ex_laps
           eq_refl eq_refl); [|exact Hcol].
  intros c _. apply ex_session_passes.
Defined.

Lemma fastest_laps_are_the_fastest_witness :
  current_session (loaded ex_session_many) = Some ex_session_many ∧
  Session.laps ex_session_many = Ok ex_laps_many ∧
  ∃ chosen rest,
    chosen ++ rest ≡ₚ filter (recorded "LapTime") (iterrows ex_laps_many) ∧
    Forall2 (λ row lap, lap_record row = Ok lap) chosen
      (fastest_laps (session_data
         (update_session_data "2024-12-08T17:05:00" (loaded ex_session_many)).2)) ∧
    (rest ≠ [] → length chosen = 10%nat) ∧
    ∀ a b, a ∈ chosen → b ∈ rest → no_slower a b.
Proof.
  split_and!; [reflexivity|reflexivity|].
  apply (fastest_laps_are_the_fastest (loaded ex_session_many) ex_session_many
           _ ex_laps_many eq_refl eq_refl).
  intros c _. apply ex_session_many_passes.
Defined.

Lemma track_status_label_matches_code_witness :
  reachable ex_started ∧
  Forall (λ event, ts_status event = status_label (ts_status_code event))
    (track_status (session_data ex_started)).
Proof.
  split; [exact ex_started_reachable|].
  apply track_status_label_matches_code, ex_started_reachable.
Defined.

Lemma no_green_flag_entry_witness :
  current_session (loaded ex_session) = Some ex_session ∧
  Session.track_status ex_session = Ok ex_track_status ∧
  Forall (λ row, ∃ s, series_get row "Status" VNaN = VStr s)
    (iterrows ex_track_status) ∧
  Forall (λ event, ts_status_code event ≠ "1" ∧ ts_status event ≠ "Green Flag")
    (track_status (session_data
       (update_session_data "2024-12-08T17:05:00" (loaded ex_session)).2)).
Proof.
  assert (Hstrings : Forall (λ row, ∃ s, series_get row "Status" VNaN = VStr s)
                       (iterrows ex_track_status)).
  { unfold iterrows. simpl. repeat constructor; eexists; reflexivity. }
  split_and!; [reflexivity|reflexivity|exact Hstrings|].
  apply (no_green_flag_entry (loaded ex_session) ex_session _ ex_track_status
           eq_refl eq_refl); [|exact Hstrings].
  intros c _. apply ex_session_passes.
Defined.

Lemma missing_lap_time_column_witness :
  current_session ex_started = Some ex_session ∧
  Session.laps ex_session_no_time = Ok ex_laps_no_time ∧
  ("LapTime" ∉ columns ex_laps_no_time) ∧
  let g := {| current_session := Some ex_session_no_time;
              session_data := session_data ex_started |} in
  let d := session_data g in
  let d' := session_data (update_session_data "2024-12-08T17:05:00" g).2 in
  extract_fastest_laps ex_session_no_time = Raise (KeyError "LapTime") ∧
  fastest_laps d' = fastest_laps d ∧ pit_stops d' = pit_stops d ∧
  race_control_messages d' = race_control_messages d ∧
  last_update d' = last_update d.
Proof.
  assert (Hcol : "LapTime" ∉ columns ex_laps_no_time).
  { simpl. intros Hin.
    repeat (apply elem_of_cons in Hin as [Heq|Hin]; [discriminate Heq|]).
    by apply elem_of_nil in Hin. }
  split_and!; [by vm_compute|reflexivity|exact Hcol|].
  intros g.
  exact (missing_lap_time_column g ex_session_no_time "2024-12-08T17:05:00"
           ex_laps_no_time eq_refl eq_refl Hcol).
Defined.

Lemma empty_tables_clear_snapshot_witness :
  current_session ex_started = Some ex_session ∧
  let g := {| current_session := Some ex_session_empty;
              session_data := session_data ex_started |} in
  session_data (update_session_data "2024-12-15T09:00:00" g).2 =
    {| positions := []; track_status := []; fastest_laps := [];
       pit_stops := []; race_control_messages := [];
       last_update := Some "2024-12-15T09:00:00"; is_live := false |}.
Proof.
  split; [by vm_compute|]. intros g.
  apply (empty_tables_clear_snapshot g ex_session_empty _
           {| columns := columns ex_results; rows := [] |}
           {| columns := columns ex_track_status; rows := [] |}
           {| columns := columns ex_laps; rows := [] |}
           {| columns := columns ex_messages; rows := [] |} eq_refl).
  - by split.
  - split_and!; [reflexivity|reflexivity|]. simpl. right. left.
  - split_and!; [reflexivity|reflexivity| |]; simpl.
    + do 3 right. left.
    + do 4 right. left.
  - by split.
Defined.

Lemma race_control_endpoint_witness :
  current_session (loaded ex_session) = Some ex_session ∧
  Session.race_control_messages ex_session = Ok ex_messages ∧
  (let reply := get_race_control {[ "limit" := "1" ]}
       (update_session_data "2024-12-08T17:05:00" (loaded ex_session)).2 in
   Forall2 message_of (take 1 (iterrows ex_messages)) (dr_data reply) ∧
   length (dr_data reply) = 1%nat ∧
   dr_last_update reply = Some "2024-12-08T17:05:00").
Proof.
  split_and!; [reflexivity|reflexivity|].
  destruct (race_control_endpoint (loaded ex_session) {[ "limit" := "1" ]}
              ex_session "2024-12-08T17:05:00" ex_messages eq_refl eq_refl
              ex_session_passes)
    as (_ & Hlimit & _ & _ & _ & Hstamp).
  destruct (Hlimit 1%Z) as [Hrows Hlen];
    [lia|reflexivity|vm_compute; lia|].
  split_and!; [exact Hrows|exact Hlen|exact Hstamp].
Defined.

Lemma negative_limit_drops_last_witness :
  ({[ "limit" := "-1" ]} : gmap string string) !! "limit"
  = Some (pretty (- Z.of_nat 1)%Z) ∧
  (String.length (pretty (Z.of_nat 1)) ≤ int_max_str_digits)%nat ∧
  length (fastest_laps (session_data ex_started)) = 4%nat ∧
  length (dr_data (get_fastest_laps {[ "limit" := "-1" ]} ex_started)) = 3%nat ∧
  dr_data (get_race_control {[ "limit" := "-1" ]} ex_started)
  = take 1 (race_control_messages (session_data ex_started)).
Proof.
  assert (Harg : ({[ "limit" := "-1" ]} : gmap string string) !! "limit"
                 = Some (pretty (- Z.of_nat 1)%Z)) by reflexivity.
  assert (Hdigits : (String.length (pretty (Z.of_nat 1)) ≤ int_max_str_digits)%nat)
    by (vm_compute; lia).
  destruct (negative_limit_drops_last ex_started {[ "limit" := "-1" ]} 0 Harg)
    as [Hshort _].
  destruct (Hshort Hdigits) as (_ & Hmessages & Hlen & _).
  split_and!; [exact Harg|exact Hdigits|reflexivity|exact Hlen|exact Hmessages].
Defined.

Lemma load_endpoint_failure_witness :
  fails world_unknown_event (body_year ∅) (body_event ∅) (body_session_type ∅) ∧
  load_session_endpoint world_unknown_event (Ok ∅) ex_started =
    (Ok {| mr_code := 500; mr_success := false;
           mr_message := "Failed to load session"; mr_extra := None |},
     ex_started).
Proof.
  assert (Hfail : fails world_unknown_event (body_year ∅) (body_event ∅)
                    (body_session_type ∅)).
  { left. eexists. reflexivity. }
  split; [exact Hfail|]. by apply load_endpoint_failure.
Defined.

Lemma load_endpoint_success_witness :
  delivers (world_with ex_session) (body_year ∅) (body_event ∅)
    (body_session_type ∅) ex_session ∧
  ∃ message g',
    load_session_endpoint (world_with ex_session) (Ok ∅) initial_globals =
      (Ok {| mr_code := 200; mr_success := true; mr_message := message;
             mr_extra := Some (session_data g') |}, g') ∧
    current_session g' = Some ex_session ∧
    g' = (update_session_data (clock (world_with ex_session))
            (assign (set_current_session ex_session) initial_globals)).2.
Proof.
  assert (Hok : delivers (world_with ex_session) (body_year ∅) (body_event ∅)
                  (body_session_type ∅) ex_session).
  { exists (). split; reflexivity. }
  split; [exact Hok|]. by apply load_endpoint_success.
Defined.

Lemma load_endpoint_defaults_witness :
  let data : gmap string value := {[ "laps" := VInt 3 ]} in
  data !! "year" = None ∧ data !! "event" = None ∧
  data !! "session_type" = None ∧
  load_session_endpoint (world_with ex_session) (Ok data) initial_globals =
    load_session_endpoint (world_with ex_session)
      (Ok (<["year" := VInt 2024]> (<["event" := VStr "Abu Dhabi"]>
            (<["session_type" := VStr "R"]> data)))) initial_globals ∧
  (load_session_endpoint (world_with ex_session) (Ok data) initial_globals).2
  = ex_started.
Proof.
  intros data.
  assert (Hyear : data !! "year" = None) by reflexivity.
  assert (Hevent : data !! "event" = None) by reflexivity.
  assert (Htype : data !! "session_type" = None) by reflexivity.
  destruct (load_endpoint_defaults (world_with ex_session) data initial_globals)
    as (_ & _ & _ & Hall).
  destruct (Hall Hyear Hevent Htype) as [Hsame Hstate].
  split_and!; [exact Hyear|exact Hevent|exact Htype|exact Hsame|exact Hstate].
Defined.

Lemma refresh_with_session_witness :
  current_session ex_started = Some ex_session ∧
  refresh_data "2024-12-08T17:05:00" ex_started =
    (Ok {| mr_code := 200; mr_success := true; mr_message := "Data refreshed";
           mr_extra := Some (last_update (session_data
             (update_session_data "2024-12-08T17:05:00" ex_started).2)) |},
     (update_session_data "2024-12-08T17:05:00" ex_started).2).
Proof.
  assert (Hc : current_session ex_started = Some ex_session) by (by vm_compute).
  split; [exact Hc|].
  apply (refresh_with_session "2024-12-08T17:05:00" ex_started ex_session Hc).
Defined.

Lemma session_never_unloaded_witness :
  current_session ex_started ≠ None ∧
  current_session
    (load_session world_load_fails (VInt 2025) (VStr "Monza") (VStr "Q")
       ex_started).2 ≠ None ∧
  current_session (refresh_data "2024-12-08T17:05:00" ex_started).2 ≠ None ∧
  st_session_loaded (get_status ex_started) = true.
Proof.
  assert (Hc : current_session ex_started ≠ None)
    by (vm_compute; discriminate).
  destruct (session_never_unloaded ex_started Hc) as (Hload & _ & Hrefresh & Hst).
  split_and!; [exact Hc|apply Hload|apply Hrefresh|exact Hst].
Defined.

Lemma snapshot_initial_until_loaded_witness :
  reachable ex_not_started ∧ current_session ex_not_started = None ∧
  session_data ex_not_started = session_data initial_globals.
Proof.
  assert (Hreach : reachable ex_not_started) by apply reach_main, reach_import.
  assert (Hc : current_session ex_not_started = None) by reflexivity.
  split_and!; [exact Hreach|exact Hc|].
  by apply snapshot_initial_until_loaded.
Defined.

Lemma track_status_attribute_raises_witness :
  current_session (loaded ex_session_track_not_loaded)
  = Some ex_session_track_not_loaded ∧
  Session.track_status ex_session_track_not_loaded
  = Raise (CollaboratorError "DataNotLoadedError") ∧
  CollaboratorError "DataNotLoadedError" ≠ AttributeError ∧
  let d' := session_data (update_session_data "2024-12-08T17:05:00"
                            (loaded ex_session_track_not_loaded)).2 in
  track_status d' = [] ∧ fastest_laps d' = [] ∧ pit_stops d' = [] ∧
  race_control_messages d' = [] ∧ last_update d' = None.
Proof.
  assert (Hne : CollaboratorError "DataNotLoadedError" ≠ AttributeError)
    by discriminate.
  split_and!; [reflexivity|reflexivity|exact Hne|].
  destruct (track_status_attribute_raises (loaded ex_session_track_not_loaded)
              ex_session_track_not_loaded "2024-12-08T17:05:00" _
              eq_refl eq_refl) as [_ Hother].
  destruct (Hother Hne) as (_ & Hts & Hfl & Hps & Hrc & Hstamp).
  split_and!; [exact Hts|exact Hfl|exact Hps|exact Hrc|exact Hstamp].
Defined.

Lemma race_control_attribute_raises_witness :
  current_session (loaded ex_session_no_messages) = Some ex_session_no_messages ∧
  Session.race_control_messages ex_session_no_messages
  = Raise (CollaboratorError "DataNotLoadedError") ∧
  let d' := session_data (update_session_data "2024-12-08T17:05:00"
                            (loaded ex_session_no_messages)).2 in
  updated ex_session_no_messages Positions d' ∧
  updated ex_session_no_messages FastestLaps d' ∧
  updated ex_session_no_messages PitStops d' ∧
  race_control_messages d' = [] ∧ last_update d' = None.
Proof.
  split_and!; [reflexivity|reflexivity|].
  apply (race_control_attribute_raises (loaded ex_session_no_messages)
           ex_session_no_messages "2024-12-08T17:05:00" _ eq_refl eq_refl).
  - discriminate.
  - intros [] Hle [e He]; simpl in Hle; try lia; vm_compute in He;
      discriminate He.
Defined.
